(** * Comment controller of the plugin extension (comments-contribution.ts)

    A shallow embedding of [CommentsContribution]: the serialised
    "add a comment at a line" queue and the reconciliation of comment-thread
    deltas with the list of zone widgets.  Every definition below follows the
    TypeScript method of the same name; the collaborators the class only
    calls (editor manager, range decorator, comment service, zone widget) are
    gathered in [Env] or recorded as effects. *)

From stdpp Require Import base option list strings gmap.
From Stdlib Require Import ZArith Lia.

Open Scope Z_scope.

(** ** Data model *)

(** [Range] of plugin-api-rpc-model: one-based lines and columns. *)
Record Range := mkRange {
  startLineNumber : Z;
  startColumn : Z;
  endLineNumber : Z;
  endColumn : Z
}.

(** [CommentThread]: the controller reads [threadId], [resource] (a string or
    null) and [range]; the empty [threadId] marks a thread that is not yet
    persisted. *)
Record CommentThread := mkThread {
  threadId : string;
  resource : option string;
  range : Range
}.

(** [ICommentInfo]: the snapshot of one owner for the inspected resource. *)
Record ICommentInfo := mkInfo {
  owner : string;
  threads : list CommentThread
}.

(** [CommentThreadWidget]: what the constructor call and [display] fix.
    [wid] stands for the identity of the JavaScript object. *)
Record CommentThreadWidget := mkWidget {
  wid : nat;
  widget_owner : string;
  commentThread : CommentThread;
  afterLineNumber : Z;
  heightInLines : Z
}.

(** The mouse event is only tested for presence by the creation workflow. *)
Record EditorMouseEvent := mkMouse { position_line : Z }.

(** Entry of the range decorator's answer for a line. *)
Record CommentAction := mkAction { ownerId : string }.

Record CommentController := mkController { id : string }.

(** Editors: [editor.editor instanceof MonacoDiffEditor] and the model of the
    modified side ([getModel()] may be null); a model is known by the string
    of its uri. *)
Record ITextModel := mkModel { uri : string }.

Record IStandaloneCodeEditor := mkCodeEditor { getModel : option ITextModel }.

Inductive TextEditor :=
| MonacoDiffEditor (getOriginalEditor getModifiedEditor : IStandaloneCodeEditor)
| MonacoEditor.

Record EditorWidget := mkEditorWidget { editor_of : TextEditor }.

(** Batch of [onDidUpdateCommentThreads]. *)
Record CommentThreadChangedEvent := mkEvent {
  e_owner : string;
  added : list CommentThread;
  removed : list CommentThread;
  changed : list CommentThread
}.

(** Event of [onDidSetResourceCommentInfos]. *)
Record ResourceCommentInfosEvent := mkInfosEvent {
  ev_resource : string;
  ev_commentInfos : list (option ICommentInfo)
}.

#[global] Instance Range_eq_dec : EqDecision Range.
Proof. solve_decision. Defined.
#[global] Instance CommentThread_eq_dec : EqDecision CommentThread.
Proof. solve_decision. Defined.
#[global] Instance CommentThreadWidget_eq_dec : EqDecision CommentThreadWidget.
Proof. solve_decision. Defined.

(** What the controller does to its collaborators, in the order it does it. *)
Inductive Effect :=
| GetComments (resource_uri : string)
| GetCommentController (owner_id : string)
| SetCommentControllerKey (provider_id : string)
| CreateCommentThreadTemplate (owner_id : string) (resource_uri : string) (r : Range)
| Dispose (w : CommentThreadWidget)
| Update (w : CommentThreadWidget).

(** Request of the insertion queue: [[lineNumber, e]]. *)
Definition Request : Type := Z * option EditorMouseEvent.

(** History of the serialiser: [Acquire] when a request finds the flag clear
    and sets it, [Enqueue] when it is queued, [Start] when [addCommentAtLine]
    is entered, [Release] when [processNextThreadToAdd] is entered. *)
Inductive SerEvent :=
| Acquire (r : Request)
| Enqueue (r : Request)
| Start (r : Request)
| Release.

(** A handle on a promise of comment infos. *)
Definition Promise : Type := nat.

(** The private fields of the class, followed by what is observed of a run:
    the allocation counter of widgets, the effects, the serialiser history,
    the [getComments] calls that [beginCompute] is still awaiting, the
    handlers suspended on [_computePromise], and the number of handlers
    subscribed to [onDidUpdateCommentThreads] (one for each diff editor
    created). *)
Record CommentsContribution := mkState {
  _addInProgress : bool;
  _commentWidgets : list CommentThreadWidget;
  _commentInfos : list ICommentInfo;
  _pendingCommentCache : gmap string (gmap string string);
  _emptyThreadsToAddQueue : list Request;
  _computePromise : option Promise;
  nextWidget : nat;
  effects : list Effect;
  history : list SerEvent;
  inflight : list string;
  suspended : list (Promise * string * CommentThreadChangedEvent);
  batchHandlers : nat
}.

(** A JavaScript value as far as a property lookup on the pending-text
    cache can answer: a string, or a value that is no string (a function, an
    object, a number) with its truthiness. *)
Inductive JSValue :=
| JSString (text : string)
| JSOther (truthy : bool).

Definition isTruthy (v : JSValue) : bool :=
  match v with
  | JSString text => negb (bool_decide (text = ""))
  | JSOther truthy => truthy
  end.

(** The collaborators as seen during one synchronous turn: the editor
    manager's current editor, the range decorator's answer for a line, the
    comment service's controller of an owner, the glyph position a widget
    reports and the string a text model prints as.  The last two fields are
    the JavaScript runtime: what a plain object answers for a key that is not
    its own property ([Object.prototype]), undefined being [None], and what
    that answer, when truthy, holds under a second key. *)
Record Env := mkEnv {
  currentEditor : option EditorWidget;
  getMatchedCommentAction : Z -> list CommentAction;
  getCommentController : string -> option CommentController;
  getGlyphPosition : CommentThreadWidget -> Z;
  modelToString : ITextModel -> string;
  inheritedProperty : string -> option JSValue;
  propertyOfInherited : string -> string -> option JSValue
}.

(** The state built by the constructor. *)
Definition initial : CommentsContribution :=
  {| _addInProgress := false; _commentWidgets := []; _commentInfos := [];
     _pendingCommentCache := ∅; _emptyThreadsToAddQueue := [];
     _computePromise := None; nextWidget := 0%nat; effects := [];
     history := []; inflight := []; suspended := []; batchHandlers := 0%nat |}.

(** Field updates. *)
Definition set_addInProgress (b : bool) (s : CommentsContribution) :=
  {| _addInProgress := b; _commentWidgets := _commentWidgets s;
     _commentInfos := _commentInfos s;
     _pendingCommentCache := _pendingCommentCache s;
     _emptyThreadsToAddQueue := _emptyThreadsToAddQueue s;
     _computePromise := _computePromise s; nextWidget := nextWidget s;
     effects := effects s; history := history s; inflight := inflight s;
     suspended := suspended s; batchHandlers := batchHandlers s |}.

Definition set_commentWidgets (ws : list CommentThreadWidget) (s : CommentsContribution) :=
  {| _addInProgress := _addInProgress s; _commentWidgets := ws;
     _commentInfos := _commentInfos s;
     _pendingCommentCache := _pendingCommentCache s;
     _emptyThreadsToAddQueue := _emptyThreadsToAddQueue s;
     _computePromise := _computePromise s; nextWidget := nextWidget s;
     effects := effects s; history := history s; inflight := inflight s;
     suspended := suspended s; batchHandlers := batchHandlers s |}.

Definition set_commentInfos (infos : list ICommentInfo) (s : CommentsContribution) :=
  {| _addInProgress := _addInProgress s; _commentWidgets := _commentWidgets s;
     _commentInfos := infos;
     _pendingCommentCache := _pendingCommentCache s;
     _emptyThreadsToAddQueue := _emptyThreadsToAddQueue s;
     _computePromise := _computePromise s; nextWidget := nextWidget s;
     effects := effects s; history := history s; inflight := inflight s;
     suspended := suspended s; batchHandlers := batchHandlers s |}.

Definition set_queue (q : list Request) (s : CommentsContribution) :=
  {| _addInProgress := _addInProgress s; _commentWidgets := _commentWidgets s;
     _commentInfos := _commentInfos s;
     _pendingCommentCache := _pendingCommentCache s;
     _emptyThreadsToAddQueue := q;
     _computePromise := _computePromise s; nextWidget := nextWidget s;
     effects := effects s; history := history s; inflight := inflight s;
     suspended := suspended s; batchHandlers := batchHandlers s |}.

Definition set_nextWidget (n : nat) (s : CommentsContribution) :=
  {| _addInProgress := _addInProgress s; _commentWidgets := _commentWidgets s;
     _commentInfos := _commentInfos s;
     _pendingCommentCache := _pendingCommentCache s;
     _emptyThreadsToAddQueue := _emptyThreadsToAddQueue s;
     _computePromise := _computePromise s; nextWidget := n;
     effects := effects s; history := history s; inflight := inflight s;
     suspended := suspended s; batchHandlers := batchHandlers s |}.

Definition emit (x : Effect) (s : CommentsContribution) :=
  {| _addInProgress := _addInProgress s; _commentWidgets := _commentWidgets s;
     _commentInfos := _commentInfos s;
     _pendingCommentCache := _pendingCommentCache s;
     _emptyThreadsToAddQueue := _emptyThreadsToAddQueue s;
     _computePromise := _computePromise s; nextWidget := nextWidget s;
     effects := effects s ++ [x]; history := history s; inflight := inflight s;
     suspended := suspended s; batchHandlers := batchHandlers s |}.

Definition note (x : SerEvent) (s : CommentsContribution) :=
  {| _addInProgress := _addInProgress s; _commentWidgets := _commentWidgets s;
     _commentInfos := _commentInfos s;
     _pendingCommentCache := _pendingCommentCache s;
     _emptyThreadsToAddQueue := _emptyThreadsToAddQueue s;
     _computePromise := _computePromise s; nextWidget := nextWidget s;
     effects := effects s; history := history s ++ [x]; inflight := inflight s;
     suspended := suspended s; batchHandlers := batchHandlers s |}.

Definition set_inflight (l : list string) (s : CommentsContribution) :=
  {| _addInProgress := _addInProgress s; _commentWidgets := _commentWidgets s;
     _commentInfos := _commentInfos s;
     _pendingCommentCache := _pendingCommentCache s;
     _emptyThreadsToAddQueue := _emptyThreadsToAddQueue s;
     _computePromise := _computePromise s; nextWidget := nextWidget s;
     effects := effects s; history := history s; inflight := l;
     suspended := suspended s; batchHandlers := batchHandlers s |}.

Definition set_suspended (l : list (Promise * string * CommentThreadChangedEvent))
    (s : CommentsContribution) :=
  {| _addInProgress := _addInProgress s; _commentWidgets := _commentWidgets s;
     _commentInfos := _commentInfos s;
     _pendingCommentCache := _pendingCommentCache s;
     _emptyThreadsToAddQueue := _emptyThreadsToAddQueue s;
     _computePromise := _computePromise s; nextWidget := nextWidget s;
     effects := effects s; history := history s; inflight := inflight s;
     suspended := l; batchHandlers := batchHandlers s |}.

Definition set_batchHandlers (n : nat) (s : CommentsContribution) :=
  {| _addInProgress := _addInProgress s; _commentWidgets := _commentWidgets s;
     _commentInfos := _commentInfos s;
     _pendingCommentCache := _pendingCommentCache s;
     _emptyThreadsToAddQueue := _emptyThreadsToAddQueue s;
     _computePromise := _computePromise s; nextWidget := nextWidget s;
     effects := effects s; history := history s; inflight := inflight s;
     suspended := suspended s; batchHandlers := n |}.

(** ** JavaScript array helpers *)

(** [l.indexOf(x)]: the first position that holds [x], -1 when there is none. *)
Fixpoint indexOf {A} `{EqDecision A} (x : A) (l : list A) : Z :=
  match l with
  | [] => -1
  | y :: l' =>
      if decide (y = x) then 0
      else let i := indexOf x l' in if i <? 0 then -1 else i + 1
  end.

(** [l.splice(start, 1)]: a negative [start] counts from the end, and nothing
    is removed past the end. *)
Definition splice1 {A} (start : Z) (l : list A) : list A :=
  let len := Z.of_nat (length l) in
  let from := if start <? 0 then Z.max (len + start) 0 else Z.min start len in
  delete (Z.to_nat from) l.

(** ** The editor getter and the simple methods *)

(** [get editor()]: the modified side of the current editor when that one is
    a diff editor, undefined otherwise. *)
Definition editor (env : Env) : option IStandaloneCodeEditor :=
  match currentEditor env with
  | Some w =>
      match editor_of w with
      | MonacoDiffEditor _ modified => Some modified
      | MonacoEditor => None
      end
  | None => None
  end.

(** [this.editor && editorModel && editorModel.uri] *)
Definition editorURI (env : Env) : option string :=
  match editor env with
  | Some ed =>
      match getModel ed with
      | Some editorModel => Some (uri editorModel)
      | None => None
      end
  | None => None
  end.

Definition setComments (env : Env) (commentInfos : list ICommentInfo)
    (s : CommentsContribution) : CommentsContribution :=
  match editor env with
  | None => s
  | Some _ => set_commentInfos commentInfos s
  end.

(** The handler of [onDidSetResourceCommentInfos]: it compares the string
    of the modified side's model with the resource of the event. *)
Definition onDidSetResourceCommentInfos (env : Env) (e : ResourceCommentInfosEvent)
    (s : CommentsContribution) : CommentsContribution :=
  match currentEditor env with
  | Some w =>
      match editor_of w with
      | MonacoDiffEditor _ modified =>
          match getModel modified with
          | Some editorURI_ =>
              if bool_decide (modelToString env editorURI_ = ev_resource e)
              then setComments env (omap (fun c => c) (ev_commentInfos e)) s
              else s
          | None => s
          end
      | MonacoEditor => s
      end
  | None => s
  end.

(** [beginCompute] up to its [await]: the fetch is issued and stays in
    flight.  No field of the class is assigned here. *)
Definition beginCompute (env : Env) (s : CommentsContribution) : CommentsContribution :=
  match editorURI env with
  | Some u => set_inflight (inflight s ++ [u]) (emit (GetComments u) s)
  | None => s
  end.

(** The rest of [beginCompute], run when the [n]-th fetch in flight settles
    with [comments]: [this.setComments(comments.filter(c => !!c))]. *)
Definition beginCompute_resume (env : Env) (n : nat)
    (comments : list (option ICommentInfo)) (s : CommentsContribution) : CommentsContribution :=
  match inflight s !! n with
  | Some _ => setComments env (omap (fun c => c) comments) (set_inflight (delete n (inflight s)) s)
  | None => s
  end.

(** [displayCommentThread]: the parameter [pendingComment] is received and
    not used; the widget is built from the editor, the owner and the thread.
    (The subscription to the editor's disposal is left to the editor.) *)
Definition displayCommentThread (env : Env) (owner_ : string) (thread : CommentThread)
    (pendingComment : option JSValue) (s : CommentsContribution) : CommentsContribution :=
  match editor env with
  | Some _ =>
      let s := emit (GetCommentController owner_) s in
      let s :=
        match getCommentController env owner_ with
        | Some provider => emit (SetCommentControllerKey (id provider)) s
        | None => s
        end in
      let zoneWidget :=
        {| wid := nextWidget s; widget_owner := owner_; commentThread := thread;
           afterLineNumber := startLineNumber (range thread); heightInLines := 5 |} in
      set_commentWidgets (_commentWidgets s ++ [zoneWidget])
        (set_nextWidget (S (nextWidget s)) s)
  | None => s
  end.

(** ** Insertion serialiser

    [addOrToggleCommentAtLine], [addCommentAtLine], [addCommentAtLine2] and
    [processNextThreadToAdd] call each other.  Each body is first written
    with [this.processNextThreadToAdd()] as the parameter [next]; the knot
    is tied below by recursion on the queue. *)

Definition addCommentAtLine2_k (env : Env) (next : CommentsContribution -> CommentsContribution)
    (lineNumber : Z) (ownerId_ : string) (s : CommentsContribution) : CommentsContribution :=
  match editorURI env with
  | Some u =>
      next (emit (CreateCommentThreadTemplate ownerId_ u
                    {| startLineNumber := lineNumber; endLineNumber := lineNumber;
                       startColumn := 1; endColumn := 1 |}) s)
  | None => s
  end.

Definition addCommentAtLine_k (env : Env) (next : CommentsContribution -> CommentsContribution)
    (lineNumber : Z) (e : option EditorMouseEvent) (s : CommentsContribution) : CommentsContribution :=
  let s := note (Start (lineNumber, e)) s in
  let newCommentInfos := getMatchedCommentAction env lineNumber in
  match currentEditor env with
  | None => s
  | Some _ =>
      match newCommentInfos with
      | [] => s
      | [info] => addCommentAtLine2_k env next lineNumber (ownerId info) s
      | _ :: _ :: _ =>
          match e with
          | Some _ => s
          | None => s
          end
      end
  end.

Definition addOrToggleCommentAtLine_k (env : Env) (next : CommentsContribution -> CommentsContribution)
    (lineNumber : Z) (e : option EditorMouseEvent) (s : CommentsContribution) : CommentsContribution :=
  if negb (_addInProgress s) then
    let s := set_addInProgress true (note (Acquire (lineNumber, e)) s) in
    let existingCommentsAtLine :=
      List.filter (fun widget => getGlyphPosition env widget =? lineNumber)
                  (_commentWidgets s) in
    match existingCommentsAtLine with
    | _ :: _ => next s
    | [] => addCommentAtLine_k env next lineNumber e s
    end
  else
    set_queue (_emptyThreadsToAddQueue s ++ [(lineNumber, e)])
      (note (Enqueue (lineNumber, e)) s).

(** [processNextThreadToAdd] on a state whose queue is [q]: the flag is
    cleared, the head of the queue is shifted out and requested again. *)
Fixpoint drain (env : Env) (q : list Request) (s : CommentsContribution) : CommentsContribution :=
  let s := set_addInProgress false (note Release s) in
  match q with
  | [] => s
  | info :: rest =>
      addOrToggleCommentAtLine_k env (drain env rest) (fst info) (snd info) (set_queue rest s)
  end.

Definition processNextThreadToAdd (env : Env) (s : CommentsContribution) : CommentsContribution :=
  drain env (_emptyThreadsToAddQueue s) s.

Definition addOrToggleCommentAtLine (env : Env) (lineNumber : Z) (e : option EditorMouseEvent)
    (s : CommentsContribution) : CommentsContribution :=
  addOrToggleCommentAtLine_k env (processNextThreadToAdd env) lineNumber e s.

Definition addCommentAtLine (env : Env) (lineNumber : Z) (e : option EditorMouseEvent)
    (s : CommentsContribution) : CommentsContribution :=
  addCommentAtLine_k env (processNextThreadToAdd env) lineNumber e s.

Definition addCommentAtLine2 (env : Env) (lineNumber : Z) (ownerId_ : string)
    (s : CommentsContribution) : CommentsContribution :=
  addCommentAtLine2_k env (processNextThreadToAdd env) lineNumber ownerId_ s.

(** ** Thread-delta reconciler *)

(** [thread.resource && thread.resource.toString() === editorURI.toString()]:
    null and the empty string are both falsy. *)
Definition forResource (editorURI_ : string) (thread : CommentThread) : bool :=
  match resource thread with
  | Some r => negb (bool_decide (r = "")) && bool_decide (r = editorURI_)
  | None => false
  end.

(** The filter of the [removed.forEach] callback. *)
Definition matchesRemoved (owner_ : string) (thread : CommentThread)
    (zoneWidget : CommentThreadWidget) : bool :=
  bool_decide (widget_owner zoneWidget = owner_)
  && bool_decide (threadId (commentThread zoneWidget) = threadId thread)
  && negb (bool_decide (threadId (commentThread zoneWidget) = "")).

(** The filter of the [changed.forEach] callback. *)
Definition matchesChanged (owner_ : string) (thread : CommentThread)
    (zoneWidget : CommentThreadWidget) : bool :=
  bool_decide (widget_owner zoneWidget = owner_)
  && bool_decide (threadId (commentThread zoneWidget) = threadId thread).

(** Callback of [removed.forEach]. *)
Definition removeThread (owner_ : string) (thread : CommentThread)
    (s : CommentsContribution) : CommentsContribution :=
  let matchedZones := List.filter (matchesRemoved owner_ thread) (_commentWidgets s) in
  match matchedZones with
  | matchedZone :: _ =>
      let index := indexOf matchedZone (_commentWidgets s) in
      emit (Dispose matchedZone)
        (set_commentWidgets (splice1 index (_commentWidgets s)) s)
  | [] => s
  end.

(** Callback of [changed.forEach]. *)
Definition changeThread (owner_ : string) (thread : CommentThread)
    (s : CommentsContribution) : CommentsContribution :=
  let matchedZones := List.filter (matchesChanged owner_ thread) (_commentWidgets s) in
  match matchedZones with
  | matchedZone :: _ => emit (Update matchedZone) s
  | [] => s
  end.

(** [infos.filter(info => info.owner === owner)[0].threads.push(thread)]:
    the first snapshot of the owner receives the thread.  With no such
    snapshot JavaScript raises; the handler returns before that. *)
Fixpoint pushThread (owner_ : string) (thread : CommentThread)
    (infos : list ICommentInfo) : list ICommentInfo :=
  match infos with
  | [] => []
  | info :: rest =>
      if bool_decide (owner info = owner_)
      then {| owner := owner info; threads := threads info ++ [thread] |} :: rest
      else info :: pushThread owner_ thread rest
  end.

(** [this._pendingCommentCache[owner] && this._pendingCommentCache[owner][threadId]]
    on plain objects: an own entry answers first, then [Object.prototype];
    [a && b] is [a] when [a] is falsy. *)
Definition pendingCommentTextOf (env : Env) (owner_ : string) (thread : CommentThread)
    (s : CommentsContribution) : option JSValue :=
  match _pendingCommentCache s !! owner_ with
  | Some perOwner =>
      match perOwner !! threadId thread with
      | Some text => Some (JSString text)
      | None => inheritedProperty env (threadId thread)
      end
  | None =>
      match inheritedProperty env owner_ with
      | Some v => if isTruthy v then propertyOfInherited env owner_ (threadId thread) else Some v
      | None => None
      end
  end.

(** Callback of [added.forEach]. *)
Definition addThread (env : Env) (owner_ : string) (thread : CommentThread)
    (s : CommentsContribution) : CommentsContribution :=
  let pendingCommentText := pendingCommentTextOf env owner_ thread s in
  let s := displayCommentThread env owner_ thread pendingCommentText s in
  set_commentInfos (pushThread owner_ thread (_commentInfos s)) s.

Definition removedPhase (editorURI_ : string) (e : CommentThreadChangedEvent)
    (s : CommentsContribution) : CommentsContribution :=
  fold_left (fun s thread => removeThread (e_owner e) thread s)
            (List.filter (forResource editorURI_) (removed e)) s.

Definition changedPhase (editorURI_ : string) (e : CommentThreadChangedEvent)
    (s : CommentsContribution) : CommentsContribution :=
  fold_left (fun s thread => changeThread (e_owner e) thread s)
            (List.filter (forResource editorURI_) (changed e)) s.

Definition addedPhase (env : Env) (editorURI_ : string) (e : CommentThreadChangedEvent)
    (s : CommentsContribution) : CommentsContribution :=
  fold_left (fun s thread => addThread env (e_owner e) thread s)
            (List.filter (forResource editorURI_) (added e)) s.

(** The handler from the line after the [await] on: nothing for an owner
    without snapshot, else removals, changes, additions. *)
Definition applyThreadDelta (env : Env) (editorURI_ : string) (e : CommentThreadChangedEvent)
    (s : CommentsContribution) : CommentsContribution :=
  let commentInfo := List.filter (fun info => bool_decide (owner info = e_owner e)) (_commentInfos s) in
  match commentInfo with
  | [] => s
  | _ :: _ =>
      addedPhase env editorURI_ e (changedPhase editorURI_ e (removedPhase editorURI_ e s))
  end.

(** The handler of [onDidUpdateCommentThreads]: without resource it returns;
    with [_computePromise] set it suspends on that promise; else it applies
    the batch in the same turn. *)
Definition onDidUpdateCommentThreads (env : Env) (e : CommentThreadChangedEvent)
    (s : CommentsContribution) : CommentsContribution :=
  match editorURI env with
  | None => s
  | Some editorURI_ =>
      match _computePromise s with
      | Some p => set_suspended (suspended s ++ [(p, editorURI_, e)]) s
      | None => applyThreadDelta env editorURI_ e s
      end
  end.

(** The handlers suspended on [p] resume, oldest first, when [p] settles. *)
Definition resumeHandlers (env : Env) (p : Promise) (s : CommentsContribution) : CommentsContribution :=
  fold_left
    (fun s k => if bool_decide (fst (fst k) = p) then applyThreadDelta env (snd (fst k)) (snd k) s else s)
    (suspended s)
    (set_suspended (List.filter (fun k => negb (bool_decide (fst (fst k) = p))) (suspended s)) s).

(** The [onCreated] handler of a diff editor from its last [await] on: the
    handler of [onDidUpdateCommentThreads] is subscribed once more, then
    [this.beginCompute()] is called.  (The decoration of the two sides
    before that, and the disposal of an editor, are left out: the runs below
    are those in which no editor is disposed.) *)
Definition onCreated_diffEditor (env : Env) (s : CommentsContribution) : CommentsContribution :=
  beginCompute env (set_batchHandlers (S (batchHandlers s)) s).

(** The comment service fires a batch: each of the [n] subscribed handlers
    runs in turn on what the one before it left. *)
Fixpoint fireThreadsUpdated (n : nat) (env : Env) (e : CommentThreadChangedEvent)
    (s : CommentsContribution) : CommentsContribution :=
  match n with
  | O => s
  | S n' => fireThreadsUpdated n' env e (onDidUpdateCommentThreads env e s)
  end.

(** ** Runs of the controller *)

(** What reaches the controller, each with the collaborators of that turn:
    a request for a line (from [onEditorMouseDown] or a caller), a batch of
    thread changes fired to every subscribed handler, the [onCreated]
    handler of a diff editor reaching its subscriptions and
    [this.beginCompute()], the settling of a fetch in flight, the settling
    of a stored promise, and a fresh set of comment infos for a resource. *)
Inductive Input :=
| Click (env : Env) (lineNumber : Z) (e : option EditorMouseEvent)
| ThreadsUpdated (env : Env) (e : CommentThreadChangedEvent)
| DiffEditorCreated (env : Env)
| CommentsFetched (env : Env) (n : nat) (comments : list (option ICommentInfo))
| PromiseSettled (env : Env) (p : Promise)
| ResourceCommentInfosSet (env : Env) (e : ResourceCommentInfosEvent).

Definition step (s : CommentsContribution) (i : Input) : CommentsContribution :=
  match i with
  | Click env lineNumber e => addOrToggleCommentAtLine env lineNumber e s
  | ThreadsUpdated env e => fireThreadsUpdated (batchHandlers s) env e s
  | DiffEditorCreated env => onCreated_diffEditor env s
  | CommentsFetched env n comments => beginCompute_resume env n comments s
  | PromiseSettled env p => resumeHandlers env p s
  | ResourceCommentInfosSet env e => onDidSetResourceCommentInfos env e s
  end.

Definition run (inputs : list Input) : CommentsContribution := fold_left step inputs initial.

(** The requests of a run, in arrival order. *)
Definition arrivals (inputs : list Input) : list Request :=
  omap (fun i => match i with Click _ lineNumber e => Some (lineNumber, e) | _ => None end) inputs.

(** The list without its first element that satisfies [p]. *)
Fixpoint removeFirst {A} (p : A -> bool) (l : list A) : list A :=
  match l with
  | [] => []
  | x :: rest => if p x then rest else x :: removeFirst p rest
  end.

(** ** Properties of states and histories *)

(** The widgets of one (owner, threadId) pair. *)
Definition matchesKey (owner_ tid : string) (w : CommentThreadWidget) : bool :=
  bool_decide (widget_owner w = owner_) && bool_decide (threadId (commentThread w) = tid).

Definition widgetsFor (owner_ tid : string) (ws : list CommentThreadWidget) : list CommentThreadWidget :=
  List.filter (matchesKey owner_ tid) ws.

(** The removals of a batch on the widget list alone. *)
Definition removals (owner_ : string) (ths : list CommentThread)
    (ws : list CommentThreadWidget) : list CommentThreadWidget :=
  fold_left (fun ws thread => removeFirst (matchesRemoved owner_ thread) ws) ths ws.

(** At most one widget per (owner, threadId) among the non-empty threadIds. *)
Definition atMostOnePerThread (ws : list CommentThreadWidget) : Prop :=
  forall owner_ tid, tid <> "" -> (length (widgetsFor owner_ tid ws) <= 1)%nat.

(** The widgets that [addedPhase] builds for [ths], numbered from [n]. *)
Fixpoint widgetsOf (n : nat) (owner_ : string) (ths : list CommentThread) : list CommentThreadWidget :=
  match ths with
  | [] => []
  | thread :: rest =>
      {| wid := n; widget_owner := owner_; commentThread := thread;
         afterLineNumber := startLineNumber (range thread); heightInLines := 5 |}
      :: widgetsOf (S n) owner_ rest
  end.

(** How often [tid] occurs among the threadIds of [ths]. *)
Definition occurrences (tid : string) (ths : list CommentThread) : nat :=
  length (List.filter (fun t => bool_decide (threadId t = tid)) ths).

(** A batch whose additions are fresh in [s]: every added thread of the
    resource with a non-empty threadId occurs once among the additions, and
    is either not displayed for the owner or also removed by the batch. *)
Definition freshBatch (env : Env) (e : CommentThreadChangedEvent) (s : CommentsContribution) : bool :=
  match editorURI env with
  | None => true
  | Some u =>
      forallb
        (fun t =>
           bool_decide (threadId t = "")
           || (Nat.eqb (occurrences (threadId t) (List.filter (forResource u) (added e))) 1
               && (Nat.eqb (length (widgetsFor (e_owner e) (threadId t) (_commentWidgets s))) 0
                   || Nat.leb 1 (occurrences (threadId t) (List.filter (forResource u) (removed e))))))
        (List.filter (forResource u) (added e))
  end.

(** The batch is fresh for each of the [n] handlers that run on it, in the
    state that handler meets. *)
Fixpoint freshRuns (n : nat) (env : Env) (e : CommentThreadChangedEvent)
    (s : CommentsContribution) : bool :=
  match n with
  | O => true
  | S n' => freshBatch env e s && freshRuns n' env e (onDidUpdateCommentThreads env e s)
  end.

(** Every batch of the inputs is fresh for every handler that runs on it. *)
Fixpoint additionsFresh (inputs : list Input) (s : CommentsContribution) : bool :=
  match inputs with
  | [] => true
  | i :: rest =>
      match i with
      | ThreadsUpdated env e => freshRuns (batchHandlers s) env e s
      | _ => true
      end && additionsFresh rest (step s i)
  end.

(** The requests that found the flag clear, in the order they were taken. *)
Definition processed (h : list SerEvent) : list Request :=
  omap (fun x => match x with Acquire r => Some r | _ => None end) h.

(** Monitor of the serialiser protocol over a history.  Its state is
    (flag held, creation workflow running); [None] is a violation: a request
    taken while the flag is held, a workflow started without the flag or
    while another runs, a request queued or a release without the flag. *)
Definition monitor (st : option (bool * bool)) (x : SerEvent) : option (bool * bool) :=
  match st with
  | None => None
  | Some (held, running) =>
      match x with
      | Acquire _ => if held then None else Some (true, false)
      | Enqueue _ => if held then Some (held, running) else None
      | Start _ => if held && negb running then Some (true, true) else None
      | Release => if held then Some (false, false) else None
      end
  end.

Definition serial (h : list SerEvent) : option (bool * bool) :=
  fold_left monitor h (Some (false, false)).

(** Creation workflows started and not yet released. *)
Definition workflowsInProgress (h : list SerEvent) : nat :=
  fold_left
    (fun n x => match x with Start _ => S n | Release => Nat.pred n | _ => n end)
    h 0%nat.

(** The [createCommentThreadTemplate] calls for a line among some effects. *)
Definition createsAtLine (lineNumber : Z) (x : Effect) : bool :=
  match x with
  | CreateCommentThreadTemplate _ _ r => startLineNumber r =? lineNumber
  | _ => false
  end.

(** What a call of [processNextThreadToAdd] on [s] must establish. *)
Definition releasedFrom (s s' : CommentsContribution) : Prop :=
  (exists running, serial (history s') = Some (_addInProgress s', running))
  /\ processed (history s') ++ _emptyThreadsToAddQueue s'
     = processed (history s) ++ _emptyThreadsToAddQueue s
  /\ (_addInProgress s' = false -> _emptyThreadsToAddQueue s' = []).

(** The part of the state the serialiser owns, and the part it never
    touches. *)
Definition serializerView (s : CommentsContribution) :=
  (_addInProgress s, _emptyThreadsToAddQueue s, history s).

Definition reconcilerView (s : CommentsContribution) :=
  (_commentWidgets s, _commentInfos s, _pendingCommentCache s, _computePromise s,
   nextWidget s, inflight s, suspended s).

(** An effect that is not the creation of a thread on a line where a widget
    already sits. *)
Definition onFreeLine (env : Env) (ws : list CommentThreadWidget) (x : Effect) : Prop :=
  match x with
  | CreateCommentThreadTemplate _ _ r =>
      List.filter (fun widget => getGlyphPosition env widget =? startLineNumber r) ws = []
  | _ => False
  end.

(** [s'] comes from [s] by serialiser work only: the reconciler's fields are
    the same and the new effects are thread creations on free lines. *)
Definition quiet (env : Env) (s s' : CommentsContribution) : Prop :=
  reconcilerView s' = reconcilerView s
  /\ exists extra, effects s' = effects s ++ extra
                   /\ Forall (onFreeLine env (_commentWidgets s)) extra.

(** Is the current editor a diff editor? *)
Definition isDiffEditor (env : Env) : bool :=
  match currentEditor env with
  | Some w => match editor_of w with MonacoDiffEditor _ _ => true | MonacoEditor => false end
  | None => false
  end.

(** The fields that only asynchronous plumbing could change, and the
    snapshot side of the reconciler. *)
Definition asyncView (s : CommentsContribution) :=
  (_computePromise s, suspended s, inflight s, _pendingCommentCache s).

Definition snapshotView (s : CommentsContribution) :=
  (_commentInfos s, nextWidget s).

(** The owner has a snapshot in the cache. *)
Definition ownerIsKnown (owner_ : string) (s : CommentsContribution) : Prop :=
  List.filter (fun info => bool_decide (owner info = owner_)) (_commentInfos s) <> [].

(** The invariant of a run for the widget list: at most one widget per
    persisted thread, no promise stored and no handler suspended. *)
Definition widgetsConsistent (s : CommentsContribution) : Prop :=
  atMostOnePerThread (_commentWidgets s)
  /\ _computePromise s = None /\ suspended s = [].

(** ** Concrete collaborators used by the examples *)

Definition diffEditorOn (u : string) : option EditorWidget :=
  Some {| editor_of :=
            MonacoDiffEditor {| getModel := None |} {| getModel := Some {| uri := u |} |} |}.

Definition envWith (ed : option EditorWidget) (providers : list CommentAction) : Env :=
  {| currentEditor := ed;
     getMatchedCommentAction := fun _ => providers;
     getCommentController := fun o => Some {| id := o |};
     getGlyphPosition := afterLineNumber;
     modelToString := uri;
     inheritedProperty :=
       fun key => if bool_decide (key = "constructor") then Some (JSOther true) else None;
     propertyOfInherited :=
       fun key key2 =>
         if bool_decide (key = "constructor") && bool_decide (key2 = "name")
         then Some (JSString "Object") else None |}.

Definition aTs : string := "file:///a.ts".

Definition envOne : Env := envWith (diffEditorOn aTs) [ {| ownerId := "o1" |} ].
Definition envNone : Env := envWith (diffEditorOn aTs) [].
Definition envTwo : Env := envWith (diffEditorOn aTs) [ {| ownerId := "o1" |}; {| ownerId := "o2" |} ].
Definition envNoEditor : Env := envWith None [ {| ownerId := "o1" |} ].
Definition envPlain : Env := envWith (Some {| editor_of := MonacoEditor |}) [ {| ownerId := "o1" |} ].
Definition envNoModel : Env :=
  envWith (Some {| editor_of := MonacoDiffEditor {| getModel := None |} {| getModel := None |} |})
          [ {| ownerId := "o1" |} ].

Definition lineRange (n : Z) : Range :=
  {| startLineNumber := n; startColumn := 1; endLineNumber := n; endColumn := 1 |}.

Definition threadT1 : CommentThread :=
  {| threadId := "t1"; resource := Some aTs; range := lineRange 3 |}.

Definition threadPlaceholder : CommentThread :=
  {| threadId := ""; resource := Some aTs; range := lineRange 3 |}.

Definition batchOf (a r c : list CommentThread) : CommentThreadChangedEvent :=
  {| e_owner := "o1"; added := a; removed := r; changed := c |}.

(** The first snapshot for [o1] has arrived. *)
Definition ownerKnown : list Input :=
  [ DiffEditorCreated envOne;
    CommentsFetched envOne 0 [ Some {| owner := "o1"; threads := [] |} ] ].

Definition mouse : EditorMouseEvent := {| position_line := 4 |}.

(** The widget the reconciler builds for [threadT1]. *)
Definition widgetT1 (n : nat) : CommentThreadWidget :=
  {| wid := n; widget_owner := "o1"; commentThread := threadT1;
     afterLineNumber := 3; heightInLines := 5 |}.

(** ** Further observations on requests *)

(** The range [addCommentAtLine2] hands to the comment service. *)
Definition templateRange (lineNumber : Z) : Range :=
  {| startLineNumber := lineNumber; endLineNumber := lineNumber;
     startColumn := 1; endColumn := 1 |}.

(** An effect a request may cause: the creation of a thread template on the
    resource of the editor, for the only provider of a line on which no
    widget of [ws] sits. *)
Definition createdByRequest (env : Env) (ws : list CommentThreadWidget) (x : Effect) : Prop :=
  exists lineNumber info u,
    x = CreateCommentThreadTemplate (ownerId info) u (templateRange lineNumber)
    /\ getMatchedCommentAction env lineNumber = [info]
    /\ editorURI env = Some u
    /\ List.filter (fun widget => getGlyphPosition env widget =? lineNumber) ws = [].

Definition requestOnly (env : Env) (s s' : CommentsContribution) : Prop :=
  reconcilerView s' = reconcilerView s
  /\ exists extra, effects s' = effects s ++ extra
                   /\ Forall (createdByRequest env (_commentWidgets s)) extra.

(** A queued request for a line on which a widget of [ws] sits. *)
Definition occupied (env : Env) (ws : list CommentThreadWidget) (r : Request) : Prop :=
  List.filter (fun widget => getGlyphPosition env widget =? fst r) ws <> [].

(** ** Further observations on batches *)

(** The refresh a changed thread causes on the widget list [ws]: the first
    widget of the owner with the thread's id, if there is one. *)
Definition refreshed (owner_ : string) (ws : list CommentThreadWidget)
    (thread : CommentThread) : option Effect :=
  match List.filter (matchesChanged owner_ thread) ws with
  | matchedZone :: _ => Some (Update matchedZone)
  | [] => None
  end.

(** ** Further observations on snapshots and widgets *)

(** The test of the [onDidSetResourceCommentInfos] handler: the current
    editor is a diff editor whose modified side has a model that prints as
    the resource. *)
Definition showsResource (env : Env) (r : string) : bool :=
  match currentEditor env with
  | Some w =>
      match editor_of w with
      | MonacoDiffEditor _ modified =>
          match getModel modified with
          | Some model => bool_decide (modelToString env model = r)
          | None => false
          end
      | MonacoEditor => false
      end
  | None => false
  end.

(** The widgets the removal callback has disposed, oldest first. *)
Definition disposedOf (xs : list Effect) : list CommentThreadWidget :=
  omap (fun x => match x with Dispose w => Some w | _ => None end) xs.

(** A widget as [displayCommentThread] builds it for a thread that passed
    the resource filter. *)
Definition wellBuilt (w : CommentThreadWidget) : Prop :=
  afterLineNumber w = startLineNumber (range (commentThread w))
  /\ heightInLines w = 5
  /\ exists r, resource (commentThread w) = Some r /\ r <> "".

(** The widgets in the list are well built, distinct objects allocated
    before [nextWidget]; the disposed ones are distinct, allocated before
    [nextWidget] and no longer in the list. *)
Definition widgetsSound (s : CommentsContribution) : Prop :=
  Forall wellBuilt (_commentWidgets s)
  /\ Forall (fun w => (wid w < nextWidget s)%nat) (_commentWidgets s)
  /\ NoDup (wid <$> _commentWidgets s)
  /\ Forall (fun w => (wid w < nextWidget s)%nat /\ wid w ∉ (wid <$> _commentWidgets s))
            (disposedOf (effects s))
  /\ NoDup (wid <$> disposedOf (effects s)).

(** ** The mouse handler *)

(** [monaco.editor.MouseTargetType] *)
Inductive MouseTargetType :=
| UNKNOWN | TEXTAREA | GUTTER_GLYPH_MARGIN | GUTTER_LINE_NUMBERS
| GUTTER_LINE_DECORATIONS | GUTTER_VIEW_ZONE | CONTENT_TEXT | CONTENT_EMPTY
| CONTENT_VIEW_ZONE | CONTENT_WIDGET | OVERVIEW_RULER | SCROLLBAR
| OVERLAY_WIDGET | OUTSIDE_EDITOR.

(** [e.target.detail] of a gutter target, in whole pixels. *)
Record MarginData := mkMargin {
  offsetX : Z;
  glyphMarginWidth : Z;
  lineNumbersWidth : Z;
  glyphMarginLeft : Z
}.

(** [e.target]: the start of the range when there is a range, the type, the
    margin data, the class name of the element when there is an element,
    and the zero-based line of the position when there is a position. *)
Record MouseTarget := mkTarget {
  target_range : option Z;
  target_type : MouseTargetType;
  target_detail : MarginData;
  target_element : option string;
  target_position : option Z
}.

(** [className.indexOf(needle)]: -1 when the needle does not occur. *)
Definition stringIndexOf (needle className : string) : Z :=
  match String.index 0 needle className with
  | Some n => Z.of_nat n
  | None => -1
  end.

Definition isLineDecorations (t : MouseTargetType) : bool :=
  match t with GUTTER_LINE_DECORATIONS => true | _ => false end.

(** [onEditorMouseDown]: [None] is the TypeError of [e.target.position!.line]
    on a target without position.  [mouseDownInfo] holds [range.start], so
    the second range test compares that value with itself. *)
Definition onEditorMouseDown (env : Env) (target : MouseTarget)
    (s : CommentsContribution) : option CommentsContribution :=
  match target_range target with
  | None => Some s
  | Some range_start =>
      if negb (isLineDecorations (target_type target)) then Some s
      else
        let data := target_detail target in
        let gutterOffsetX :=
          offsetX data - glyphMarginWidth data - lineNumbersWidth data - glyphMarginLeft data in
        if gutterOffsetX >? 14 then Some s
        else
          let lineNumber := range_start in
          if negb (range_start =? lineNumber) then Some s
          else
            match target_element target with
            | None => Some s
            | Some className =>
                if stringIndexOf "comment-diff-added" className >=? 0 then
                  match target_position target with
                  | Some line =>
                      Some (addOrToggleCommentAtLine env (line + 1)
                              (Some {| position_line := line |}) s)
                  | None => None
                  end
                else Some s
            end
  end.

(** A target in the first 14 pixels of the line-decorations gutter, on an
    element marked as an added line of the diff. *)
Definition gutterTarget (className : string) (line : Z) : MouseTarget :=
  {| target_range := Some (line + 1);
     target_type := GUTTER_LINE_DECORATIONS;
     target_detail := {| offsetX := 60; glyphMarginWidth := 18; lineNumbersWidth := 30;
                         glyphMarginLeft := 0 |};
     target_element := Some className;
     target_position := Some line |}.

(** ** Effects of a batch, phase by phase *)

Definition isDispose (x : Effect) : Prop :=
  match x with Dispose _ => True | _ => False end.

(** What [displayCommentThread] asks of the comment service and of the
    context keys for one thread of [owner_]. *)
Definition controllerLookup (env : Env) (owner_ : string) : list Effect :=
  GetCommentController owner_
  :: match getCommentController env owner_ with
     | Some provider => [SetCommentControllerKey (id provider)]
     | None => []
     end.

(** ** Cached text and removed threads *)


(** The batch without the removed threads that are not yet persisted. *)
Definition withoutPlaceholderRemovals (e : CommentThreadChangedEvent) : CommentThreadChangedEvent :=
  {| e_owner := e_owner e; added := added e;
     removed := List.filter (fun thread => negb (bool_decide (threadId thread = ""))) (removed e);
     changed := changed e |}.


(** ** The recursion equations of the serialiser *)

(** The bodies use [next] only on states that hold the queue they were
    given. *)
Lemma addOrToggleCommentAtLine_k_ext env next1 next2 lineNumber e s :
  (forall s', _emptyThreadsToAddQueue s' = _emptyThreadsToAddQueue s -> next1 s' = next2 s') ->
  addOrToggleCommentAtLine_k env next1 lineNumber e s
  = addOrToggleCommentAtLine_k env next2 lineNumber e s.
Proof.
  intros Hnext.
  unfold addOrToggleCommentAtLine_k, addCommentAtLine_k, addCommentAtLine2_k.
  destruct (_addInProgress s); simpl; [reflexivity|].
  destruct (List.filter _ _); [|apply Hnext; reflexivity].
  destruct (currentEditor env); [|reflexivity].
  destruct (getMatchedCommentAction env lineNumber) as [|info [|info' more]];
    try reflexivity.
  - destruct (editorURI env); [apply Hnext|]; reflexivity.
Qed.

(** [processNextThreadToAdd] as the source writes it. *)
Lemma processNextThreadToAdd_eq env s :
  processNextThreadToAdd env s =
  let s1 := set_addInProgress false (note Release s) in
  match _emptyThreadsToAddQueue s1 with
  | [] => s1
  | info :: rest => addOrToggleCommentAtLine env (fst info) (snd info) (set_queue rest s1)
  end.
Proof.
  unfold processNextThreadToAdd, addOrToggleCommentAtLine. simpl.
  destruct (_emptyThreadsToAddQueue s) as [|info rest]; simpl; [reflexivity|].
  apply addOrToggleCommentAtLine_k_ext. simpl.
  intros s' Hq. unfold processNextThreadToAdd. rewrite Hq. reflexivity.
Qed.

(** ** The scenarios of the specification, evaluated *)

(** Owner [o1], thread [t1] on line 3 of the active resource arrives as
    added: one widget, placed after line 3. *)
Example added_thread_is_displayed :
  _commentWidgets (run (ownerKnown ++ [ThreadsUpdated envOne (batchOf [threadT1] [] [])]))
  = [ widgetT1 0 ].
Proof. reflexivity. Qed.

(** A request on a free line with one provider creates the thread template
    and releases the flag in the same turn. *)
Example single_provider_request :
  effects (run [Click envOne 5 None])
  = [ CreateCommentThreadTemplate "o1" aTs (lineRange 5) ]
  /\ _addInProgress (run [Click envOne 5 None]) = false.
Proof. split; reflexivity. Qed.

(** A request that arrives while the flag is held is queued. *)
Example request_is_queued :
  _emptyThreadsToAddQueue (run [Click envNone 5 None; Click envOne 6 (Some mouse)])
  = [ (6, Some mouse) ].
Proof. reflexivity. Qed.

(** ** The serialiser protocol *)

Lemma serial_snoc h x : serial (h ++ [x]) = monitor (serial h) x.
Proof. unfold serial. rewrite fold_left_app. reflexivity. Qed.

Lemma processed_snoc h x : processed (h ++ [x]) = processed h ++ processed [x].
Proof. unfold processed. apply omap_app. Qed.

Lemma addOrToggleCommentAtLine_k_serial env next lineNumber e s running :
  _addInProgress s = false ->
  serial (history s) = Some (false, running) ->
  (forall s1 running1,
      _emptyThreadsToAddQueue s1 = _emptyThreadsToAddQueue s ->
      _addInProgress s1 = true ->
      serial (history s1) = Some (true, running1) ->
      processed (history s1) = processed (history s) ++ [(lineNumber, e)] ->
      releasedFrom s1 (next s1)) ->
  releasedFrom (set_queue ((lineNumber, e) :: _emptyThreadsToAddQueue s) s)
               (addOrToggleCommentAtLine_k env next lineNumber e s).
Proof.
  intros Hflag Hser Hnext.
  assert (Hrel : forall s1 running1,
             _emptyThreadsToAddQueue s1 = _emptyThreadsToAddQueue s ->
             _addInProgress s1 = true ->
             serial (history s1) = Some (true, running1) ->
             processed (history s1) = processed (history s) ++ [(lineNumber, e)] ->
             releasedFrom (set_queue ((lineNumber, e) :: _emptyThreadsToAddQueue s) s) (next s1)).
  { intros s1 r1 Hq Hf Hs Hp.
    destruct (Hnext s1 r1 Hq Hf Hs Hp) as (Ha & Hb & Hc).
    split; [exact Ha|]. split; [|exact Hc].
    rewrite Hb, Hp, Hq, <- app_assoc. reflexivity. }
  unfold addOrToggleCommentAtLine_k, addCommentAtLine_k, addCommentAtLine2_k.
  rewrite Hflag. simpl.
  destruct (List.filter _ _).
  - destruct (currentEditor env);
      [destruct (getMatchedCommentAction env lineNumber) as [|info [|info' more]];
       [| destruct (editorURI env) | destruct e] |].
    all: try (unfold releasedFrom; simpl; rewrite !serial_snoc, Hser, !processed_snoc; simpl;
              split; [eexists; reflexivity|];
              split; [rewrite ?app_nil_r, <- ?app_assoc; reflexivity | discriminate]).
    eapply Hrel; simpl; try reflexivity.
    + rewrite !serial_snoc, Hser. reflexivity.
    + rewrite !processed_snoc. simpl. rewrite app_nil_r. reflexivity.
  - eapply Hrel; simpl; try reflexivity.
    + rewrite !serial_snoc, Hser. reflexivity.
    + rewrite !processed_snoc. reflexivity.
Qed.

Lemma drain_serial env q :
  forall s running,
    _emptyThreadsToAddQueue s = q ->
    _addInProgress s = true ->
    serial (history s) = Some (true, running) ->
    releasedFrom s (drain env q s).
Proof.
  induction q as [|[lineNumber e] rest IH]; intros s running Hq Hflag Hser.
  - unfold releasedFrom. simpl. rewrite serial_snoc, Hser, processed_snoc. simpl.
    rewrite app_nil_r, Hq. eauto.
  - simpl.
    set (s1 := set_queue rest (set_addInProgress false (note Release s))).
    assert (H1 : releasedFrom (set_queue ((lineNumber, e) :: _emptyThreadsToAddQueue s1) s1)
                   (addOrToggleCommentAtLine_k env (drain env rest) lineNumber e s1)).
    { eapply addOrToggleCommentAtLine_k_serial.
      - reflexivity.
      - subst s1. simpl. rewrite serial_snoc, Hser. simpl. reflexivity.
      - intros s2 r2 Hq2 Hf2 Hs2 _. eapply IH; eauto. }
    destruct H1 as (Ha & Hb & Hc). split; [exact Ha|]. split; [|exact Hc].
    rewrite Hb. subst s1. simpl. rewrite processed_snoc, Hq. simpl.
    rewrite app_nil_r. reflexivity.
Qed.

Lemma processNextThreadToAdd_serial env s running :
  _addInProgress s = true ->
  serial (history s) = Some (true, running) ->
  releasedFrom s (processNextThreadToAdd env s).
Proof. intros. eapply drain_serial; eauto. Qed.

(** ** Frame lemmas *)

Lemma fold_left_view {A B C} (view : A -> C) (f : A -> B -> A) (l : list B) :
  (forall a x, view (f a x) = view a) ->
  forall a, view (fold_left f l a) = view a.
Proof.
  intros Hf. induction l as [|x l IH]; intros a; simpl; [reflexivity|].
  rewrite IH. apply Hf.
Qed.

Lemma removeThread_serializerView owner_ thread s :
  serializerView (removeThread owner_ thread s) = serializerView s.
Proof. unfold removeThread. destruct (List.filter _ _); reflexivity. Qed.

Lemma changeThread_serializerView owner_ thread s :
  serializerView (changeThread owner_ thread s) = serializerView s.
Proof. unfold changeThread. destruct (List.filter _ _); reflexivity. Qed.

Lemma displayCommentThread_serializerView env owner_ thread pending s :
  serializerView (displayCommentThread env owner_ thread pending s) = serializerView s.
Proof.
  unfold displayCommentThread. destruct (editor env); [|reflexivity].
  destruct (getCommentController env owner_); reflexivity.
Qed.

Lemma addThread_serializerView env owner_ thread s :
  serializerView (addThread env owner_ thread s) = serializerView s.
Proof.
  unfold addThread.
  rewrite <- (displayCommentThread_serializerView env owner_ thread
                (pendingCommentTextOf env owner_ thread s) s).
  reflexivity.
Qed.

Lemma applyThreadDelta_serializerView env u e s :
  serializerView (applyThreadDelta env u e s) = serializerView s.
Proof.
  unfold applyThreadDelta. destruct (List.filter _ _); [reflexivity|].
  unfold addedPhase, changedPhase, removedPhase.
  rewrite (fold_left_view serializerView); [|intros; apply addThread_serializerView].
  rewrite (fold_left_view serializerView); [|intros; apply changeThread_serializerView].
  apply (fold_left_view serializerView). intros; apply removeThread_serializerView.
Qed.

Lemma onDidUpdateCommentThreads_serializerView env e s :
  serializerView (onDidUpdateCommentThreads env e s) = serializerView s.
Proof.
  unfold onDidUpdateCommentThreads. destruct (editorURI env); [|reflexivity].
  destruct (_computePromise s); [reflexivity|]. apply applyThreadDelta_serializerView.
Qed.

Lemma fireThreadsUpdated_view {C} (view : CommentsContribution -> C) n env e :
  (forall s, view (onDidUpdateCommentThreads env e s) = view s) ->
  forall s, view (fireThreadsUpdated n env e s) = view s.
Proof.
  intros Hview. induction n as [|n IH]; intros s; simpl; [reflexivity|].
  rewrite IH. apply Hview.
Qed.

Lemma fireThreadsUpdated_kept (P : CommentsContribution -> Prop) n env e :
  (forall s, P s -> P (onDidUpdateCommentThreads env e s)) ->
  forall s, P s -> P (fireThreadsUpdated n env e s).
Proof.
  intros Hkept. induction n as [|n IH]; intros s Hs; simpl; [exact Hs|].
  apply IH. apply Hkept. exact Hs.
Qed.

Lemma setComments_serializerView env infos s :
  serializerView (setComments env infos s) = serializerView s.
Proof. unfold setComments. destruct (editor env); reflexivity. Qed.

Lemma onDidSetResourceCommentInfos_serializerView env e s :
  serializerView (onDidSetResourceCommentInfos env e s) = serializerView s.
Proof.
  unfold onDidSetResourceCommentInfos.
  destruct (currentEditor env) as [w|]; [|reflexivity].
  destruct (editor_of w) as [original modified|]; [|reflexivity].
  destruct (getModel modified); [|reflexivity].
  destruct (bool_decide _); [apply setComments_serializerView|reflexivity].
Qed.

Lemma setComments_widgets env infos s :
  _commentWidgets (setComments env infos s) = _commentWidgets s
  /\ _computePromise (setComments env infos s) = _computePromise s
  /\ suspended (setComments env infos s) = suspended s.
Proof. unfold setComments. destruct (editor env); auto. Qed.

Lemma onDidSetResourceCommentInfos_widgets env e s :
  _commentWidgets (onDidSetResourceCommentInfos env e s) = _commentWidgets s
  /\ _computePromise (onDidSetResourceCommentInfos env e s) = _computePromise s
  /\ suspended (onDidSetResourceCommentInfos env e s) = suspended s.
Proof.
  unfold onDidSetResourceCommentInfos.
  destruct (currentEditor env) as [w|]; [|auto].
  destruct (editor_of w) as [original modified|]; [|auto].
  destruct (getModel modified); [|auto].
  destruct (bool_decide _); [apply setComments_widgets|auto].
Qed.

Lemma beginCompute_serializerView env s :
  serializerView (beginCompute env s) = serializerView s.
Proof. unfold beginCompute. destruct (editorURI env); reflexivity. Qed.

Lemma onCreated_diffEditor_serializerView env s :
  serializerView (onCreated_diffEditor env s) = serializerView s.
Proof. unfold onCreated_diffEditor, beginCompute. destruct (editorURI env); reflexivity. Qed.

Lemma beginCompute_resume_serializerView env n comments s :
  serializerView (beginCompute_resume env n comments s) = serializerView s.
Proof.
  unfold beginCompute_resume. destruct (inflight s !! n); [|reflexivity].
  rewrite setComments_serializerView. reflexivity.
Qed.

Lemma resumeHandlers_serializerView env p s :
  serializerView (resumeHandlers env p s) = serializerView s.
Proof.
  unfold resumeHandlers.
  rewrite (fold_left_view serializerView); [reflexivity|].
  intros a k. destruct (bool_decide _); [apply applyThreadDelta_serializerView|reflexivity].
Qed.

(** Inputs other than a click leave the serialiser alone. *)
Lemma step_serializerView s i :
  (forall env lineNumber e, i <> Click env lineNumber e) ->
  serializerView (step s i) = serializerView s.
Proof.
  intros Hi. destruct i; simpl.
  - exfalso. eapply Hi. reflexivity.
  - apply (fireThreadsUpdated_view serializerView).
    intros. apply onDidUpdateCommentThreads_serializerView.
  - apply onCreated_diffEditor_serializerView.
  - apply beginCompute_resume_serializerView.
  - apply resumeHandlers_serializerView.
  - apply onDidSetResourceCommentInfos_serializerView.
Qed.

Lemma serializerView_inv s s' :
  serializerView s' = serializerView s ->
  _addInProgress s' = _addInProgress s
  /\ _emptyThreadsToAddQueue s' = _emptyThreadsToAddQueue s
  /\ history s' = history s.
Proof. unfold serializerView. intros H. inversion H. auto. Qed.

(** ** The serialiser is quiet on the reconciler's side *)

Lemma quiet_refl env s : quiet env s s.
Proof. split; [reflexivity|]. exists []. rewrite app_nil_r. auto. Qed.

Lemma quiet_trans env s1 s2 s3 : quiet env s1 s2 -> quiet env s2 s3 -> quiet env s1 s3.
Proof.
  intros (Hv1 & x1 & He1 & Hf1) (Hv2 & x2 & He2 & Hf2).
  split; [congruence|]. exists (x1 ++ x2). split.
  - rewrite He2, He1, app_assoc. reflexivity.
  - apply Forall_app. split; [exact Hf1|].
    assert (Hw : _commentWidgets s2 = _commentWidgets s1)
      by (unfold reconcilerView in Hv1; congruence).
    rewrite <- Hw. exact Hf2.
Qed.

Lemma addOrToggleCommentAtLine_k_quiet env next lineNumber e s :
  (forall s1, quiet env s s1 -> quiet env s1 (next s1)) ->
  quiet env s (addOrToggleCommentAtLine_k env next lineNumber e s).
Proof.
  intros Hnext.
  assert (Hvia : forall s1, quiet env s s1 -> quiet env s (next s1))
    by (intros s1 H1; eapply quiet_trans; [exact H1|apply Hnext; exact H1]).
  unfold addOrToggleCommentAtLine_k, addCommentAtLine_k, addCommentAtLine2_k.
  destruct (_addInProgress s); simpl; [apply (quiet_refl env s)|].
  destruct (List.filter _ _) eqn:Hfree; [|apply Hvia; apply (quiet_refl env s)].
  destruct (currentEditor env); [|apply (quiet_refl env s)].
  destruct (getMatchedCommentAction env lineNumber) as [|info [|info' more]].
  - apply (quiet_refl env s).
  - destruct (editorURI env); [|apply (quiet_refl env s)].
    apply Hvia. split; [reflexivity|]. eexists. split; [reflexivity|].
    constructor; [|constructor]. simpl. simpl in Hfree. exact Hfree.
  - destruct e; apply (quiet_refl env s).
Qed.

Lemma drain_quiet env q : forall s, quiet env s (drain env q s).
Proof.
  induction q as [|[lineNumber e] rest IH]; intros s; simpl.
  - apply (quiet_refl env s).
  - eapply quiet_trans; [|apply addOrToggleCommentAtLine_k_quiet; intros; apply IH].
    apply (quiet_refl env s).
Qed.

Lemma addOrToggleCommentAtLine_quiet env lineNumber e s :
  quiet env s (addOrToggleCommentAtLine env lineNumber e s).
Proof.
  apply addOrToggleCommentAtLine_k_quiet. intros. apply drain_quiet.
Qed.

(** ** Runs: the serialiser invariant *)

Lemma run_snoc inputs i : run (inputs ++ [i]) = step (run inputs) i.
Proof. unfold run. rewrite fold_left_app. reflexivity. Qed.

Lemma arrivals_snoc inputs i : arrivals (inputs ++ [i]) = arrivals inputs ++ arrivals [i].
Proof. unfold arrivals. apply omap_app. Qed.

Lemma step_serial s i :
  (exists running, serial (history s) = Some (_addInProgress s, running)) ->
  (_addInProgress s = false -> _emptyThreadsToAddQueue s = []) ->
  (exists running, serial (history (step s i)) = Some (_addInProgress (step s i), running))
  /\ processed (history (step s i)) ++ _emptyThreadsToAddQueue (step s i)
     = (processed (history s) ++ _emptyThreadsToAddQueue s) ++ arrivals [i]
  /\ (_addInProgress (step s i) = false -> _emptyThreadsToAddQueue (step s i) = []).
Proof.
  intros [running Hser] Hempty.
  assert (Hother : (forall env lineNumber e, i <> Click env lineNumber e) ->
                   arrivals [i] = [] ->
                   (exists running, serial (history (step s i)) = Some (_addInProgress (step s i), running))
                   /\ processed (history (step s i)) ++ _emptyThreadsToAddQueue (step s i)
                      = (processed (history s) ++ _emptyThreadsToAddQueue s) ++ arrivals [i]
                   /\ (_addInProgress (step s i) = false -> _emptyThreadsToAddQueue (step s i) = [])).
  { intros Hi Harr.
    destruct (serializerView_inv _ _ (step_serializerView s i Hi)) as (Hf & Hq & Hh).
    rewrite Hf, Hq, Hh, Harr, app_nil_r. eauto. }
  destruct i as [env lineNumber e| | | | |]; try (apply Hother; [discriminate|reflexivity]).
  simpl. unfold addOrToggleCommentAtLine.
  destruct (_addInProgress s) eqn:Hflag.
  - unfold addOrToggleCommentAtLine_k. rewrite Hflag. simpl.
    rewrite serial_snoc, Hser, processed_snoc. simpl.
    rewrite app_nil_r, Hflag. split; [eauto|].
    split; [apply app_assoc|discriminate].
  - destruct (addOrToggleCommentAtLine_k_serial env (processNextThreadToAdd env)
                lineNumber e s running Hflag Hser) as (Ha & Hb & Hc).
    { intros s1 running1 _ Hf1 Hs1 _. eapply processNextThreadToAdd_serial; eauto. }
    split; [exact Ha|]. split; [|exact Hc].
    rewrite Hb. simpl. rewrite (Hempty eq_refl), !app_nil_r. reflexivity.
Qed.

Lemma run_serial inputs :
  (exists running, serial (history (run inputs)) = Some (_addInProgress (run inputs), running))
  /\ processed (history (run inputs)) ++ _emptyThreadsToAddQueue (run inputs) = arrivals inputs
  /\ (_addInProgress (run inputs) = false -> _emptyThreadsToAddQueue (run inputs) = []).
Proof.
  pattern inputs. apply List.rev_ind; clear inputs.
  - split; [exists false; reflexivity|]. split; reflexivity.
  - intros i inputs IH.
    destruct IH as (Ha & Hb & Hc). rewrite run_snoc, arrivals_snoc.
    destruct (step_serial (run inputs) i Ha Hc) as (Ha' & Hb' & Hc').
    split; [exact Ha'|]. split; [|exact Hc']. rewrite Hb', Hb. reflexivity.
Qed.

Lemma workflowsInProgress_snoc h x :
  workflowsInProgress (h ++ [x])
  = match x with
    | Start _ => S (workflowsInProgress h)
    | Release => Nat.pred (workflowsInProgress h)
    | _ => workflowsInProgress h
    end.
Proof. unfold workflowsInProgress. rewrite fold_left_app. reflexivity. Qed.

Lemma monitor_None h : fold_left monitor h None = None.
Proof. induction h as [|x h IH]; simpl; [reflexivity|exact IH]. Qed.

Lemma serial_prefix h1 h2 st :
  serial (h1 ++ h2) = Some st -> exists st1, serial h1 = Some st1.
Proof.
  unfold serial. rewrite fold_left_app.
  destruct (fold_left monitor h1 (Some (false, false))) as [st1|]; [eauto|].
  rewrite monitor_None. discriminate.
Qed.

(** A history the monitor accepts has at most one workflow in progress, and
    only while the flag is held. *)
Lemma serial_workflows h :
  forall held running,
    serial h = Some (held, running) ->
    workflowsInProgress h = (if running then 1 else 0)%nat
    /\ (running = true -> held = true).
Proof.
  pattern h. apply List.rev_ind; clear h.
  - intros held running Hser. inversion Hser. split; [reflexivity|discriminate].
  - intros x h IH held running Hser.
    rewrite serial_snoc in Hser. rewrite workflowsInProgress_snoc.
    destruct (serial h) as [[held0 running0]|] eqn:Hh; [|discriminate].
    destruct (IH held0 running0 eq_refl) as [Hn Himp].
    rewrite Hn.
    destruct x; simpl in Hser; destruct held0; simpl in Hser;
      try discriminate; try (destruct running0; simpl in Hser; try discriminate);
      inversion Hser; subst; split; try reflexivity; try (intros; reflexivity);
      try discriminate; auto.
    all: exfalso; specialize (Himp eq_refl); discriminate.
Qed.

(** The safety side of the serialiser.  Whatever reaches the controller, the
    requests are taken in their
    order of arrival: those taken so far followed by those still queued are
    exactly the arrivals ([processNextThreadToAdd] shifts the oldest entry
    out and requests it again).  The history obeys the serialiser protocol
    (a request is taken only with the flag clear, a creation workflow starts
    only with the flag set and no other workflow running), the monitored
    flag is the value of [_addInProgress], and at no point of the history is
    more than one creation workflow in progress.  The last part is
    [processNextThreadToAdd] as the source writes it: clear the flag, shift
    the oldest entry out of the queue and request it again. *)
Theorem serializer_fifo_one_at_a_time (inputs : list Input) :
  processed (history (run inputs)) ++ _emptyThreadsToAddQueue (run inputs) = arrivals inputs
  /\ (exists running,
         serial (history (run inputs)) = Some (_addInProgress (run inputs), running))
  /\ (forall h1 h2, history (run inputs) = h1 ++ h2 -> (workflowsInProgress h1 <= 1)%nat)
  /\ (forall env s,
         processNextThreadToAdd env s =
         match _emptyThreadsToAddQueue s with
         | [] => set_addInProgress false (note Release s)
         | info :: rest =>
             addOrToggleCommentAtLine env (fst info) (snd info)
               (set_queue rest (set_addInProgress false (note Release s)))
         end).
Proof.
  destruct (run_serial inputs) as ([running Hser] & Hfifo & _).
  split; [exact Hfifo|]. split; [eauto|].
  split; [|intros env s; apply processNextThreadToAdd_eq].
  intros h1 h2 Hsplit. rewrite Hsplit in Hser.
  destruct (serial_prefix _ _ _ Hser) as [[held1 running1] H1].
  destruct (serial_workflows h1 held1 running1 H1) as [Hn _].
  rewrite Hn. destruct running1; lia.
Qed.

(** Once the flag is held, no input clears it: clicks are queued and the
    other inputs do not touch the serialiser. *)
Lemma held_forever inputs :
  forall s,
    _addInProgress s = true ->
    _addInProgress (fold_left step inputs s) = true
    /\ _emptyThreadsToAddQueue (fold_left step inputs s)
       = _emptyThreadsToAddQueue s ++ arrivals inputs.
Proof.
  induction inputs as [|i inputs IH]; intros s Hflag.
  - simpl. rewrite app_nil_r. auto.
  - change (fold_left step (i :: inputs) s) with (fold_left step inputs (step s i)).
    change (arrivals (i :: inputs)) with (arrivals ([i] ++ inputs)).
    unfold arrivals at 1. rewrite omap_app. fold (arrivals [i]) (arrivals inputs).
    assert (Hstep : _addInProgress (step s i) = true
                    /\ _emptyThreadsToAddQueue (step s i)
                       = _emptyThreadsToAddQueue s ++ arrivals [i]).
    { destruct i as [env lineNumber e|env e|env|env n comments|env p|env e].
      - simpl. unfold addOrToggleCommentAtLine, addOrToggleCommentAtLine_k.
        rewrite Hflag. simpl. auto.
      - destruct (serializerView_inv _ _ (step_serializerView s (ThreadsUpdated env e)
                                             ltac:(discriminate))) as (-> & -> & _).
        simpl. rewrite app_nil_r. auto.
      - destruct (serializerView_inv _ _ (step_serializerView s (DiffEditorCreated env)
                                             ltac:(discriminate))) as (-> & -> & _).
        simpl. rewrite app_nil_r. auto.
      - simpl.
        destruct (serializerView_inv _ _ (beginCompute_resume_serializerView env n comments s))
          as (-> & -> & _). rewrite app_nil_r. auto.
      - simpl.
        destruct (serializerView_inv _ _ (resumeHandlers_serializerView env p s))
          as (-> & -> & _). rewrite app_nil_r. auto.
      - simpl.
        destruct (serializerView_inv _ _ (onDidSetResourceCommentInfos_serializerView env e s))
          as (-> & -> & _). rewrite app_nil_r. auto. }
    destruct Hstep as [Hf Hq]. destruct (IH (step s i) Hf) as [Hf' Hq'].
    split; [exact Hf'|]. rewrite Hq', Hq, <- app_assoc. reflexivity.
Qed.

(** C1.  The creation workflow returns with the flag still set on each of
    its early exits: no current editor, no candidate provider, several
    candidates (with or without mouse event), and a single candidate when
    the current editor has no model or is no diff editor.  Only a single
    candidate on a diff editor with a model reaches
    [processNextThreadToAdd].  After such an exit the flag stays set for
    ever and every later request is queued. *)
Theorem creation_workflow_leaves_flag_set :
  Forall
    (fun x : Env * option EditorMouseEvent =>
       _addInProgress (addOrToggleCommentAtLine (fst x) 5 (snd x) initial) = true
       /\ history (addOrToggleCommentAtLine (fst x) 5 (snd x) initial)
          = [Acquire (5, snd x); Start (5, snd x)])
    [ (envNoEditor, None); (envNone, None); (envTwo, None);
      (envTwo, Some mouse); (envNoModel, None); (envPlain, None) ]
  /\ (_addInProgress (addOrToggleCommentAtLine envOne 5 None initial) = false
      /\ history (addOrToggleCommentAtLine envOne 5 None initial)
         = [Acquire (5, None); Start (5, None); Release])
  /\ (forall inputs,
         _addInProgress (fold_left step inputs (addOrToggleCommentAtLine envNone 5 None initial)) = true
         /\ _emptyThreadsToAddQueue
              (fold_left step inputs (addOrToggleCommentAtLine envNone 5 None initial))
            = arrivals inputs).
Proof.
  split; [|split].
  - repeat (constructor; [split; reflexivity|]). constructor.
  - split; reflexivity.
  - intros inputs.
    apply (held_forever inputs (addOrToggleCommentAtLine envNone 5 None initial)).
    reflexivity.
Qed.

(** C5.  On a line where a widget sits, two requests in succession leave
    the widget list as it was, after the first and after the second call,
    and none of the effects they cause is the creation of a thread on that
    line. *)
Theorem addOrToggle_twice_on_occupied_line env lineNumber e1 e2 s :
  List.filter (fun widget => getGlyphPosition env widget =? lineNumber) (_commentWidgets s) <> [] ->
  _commentWidgets (addOrToggleCommentAtLine env lineNumber e1 s) = _commentWidgets s
  /\ _commentWidgets
       (addOrToggleCommentAtLine env lineNumber e2 (addOrToggleCommentAtLine env lineNumber e1 s))
     = _commentWidgets s
  /\ exists extra,
      effects (addOrToggleCommentAtLine env lineNumber e2
                 (addOrToggleCommentAtLine env lineNumber e1 s))
      = effects s ++ extra
      /\ Forall (fun x => createsAtLine lineNumber x = false) extra.
Proof.
  intros Hocc.
  pose proof (addOrToggleCommentAtLine_quiet env lineNumber e1 s) as H1.
  pose proof (addOrToggleCommentAtLine_quiet env lineNumber e2
                (addOrToggleCommentAtLine env lineNumber e1 s)) as H2.
  pose proof (quiet_trans _ _ _ _ H1 H2) as (Hv & extra & He & Hfree).
  destruct H1 as (Hv1 & _).
  split; [unfold reconcilerView in Hv1; congruence|].
  split; [unfold reconcilerView in Hv; congruence|].
  exists extra. split; [exact He|].
  eapply Forall_impl; [exact Hfree|].
  intros x Hx. destruct x; simpl in Hx; try contradiction. simpl.
  destruct (Z.eqb_spec (startLineNumber r) lineNumber) as [Heq|]; [|reflexivity].
  rewrite Heq in Hx. contradiction.
Qed.

Lemma addOrToggle_twice_on_occupied_line_witness :
  let s := run (ownerKnown ++ [ThreadsUpdated envOne (batchOf [threadT1] [] [])]) in
  _commentWidgets (addOrToggleCommentAtLine envOne 3 None s) = _commentWidgets s
  /\ _commentWidgets
       (addOrToggleCommentAtLine envOne 3 None (addOrToggleCommentAtLine envOne 3 None s))
     = _commentWidgets s
  /\ exists extra,
      effects (addOrToggleCommentAtLine envOne 3 None (addOrToggleCommentAtLine envOne 3 None s))
      = effects s ++ extra
      /\ Forall (fun x => createsAtLine 3 x = false) extra.
Proof.
  apply (addOrToggle_twice_on_occupied_line envOne 3 None None
           (run (ownerKnown ++ [ThreadsUpdated envOne (batchOf [threadT1] [] [])]))).
  vm_compute. discriminate.
Defined.

(** ** The editor getter *)

Lemma editor_None_iff env : editor env = None <-> isDiffEditor env = false.
Proof.
  unfold editor, isDiffEditor. destruct (currentEditor env) as [w|]; [|tauto].
  destruct (editor_of w); split; intros; try discriminate; reflexivity.
Qed.

Lemma editor_Some_modified env ed :
  editor env = Some ed <->
  exists w original, currentEditor env = Some w /\ editor_of w = MonacoDiffEditor original ed.
Proof.
  unfold editor. destruct (currentEditor env) as [w|].
  - destruct (editor_of w) as [original modified|] eqn:Hk; split.
    + intros H. inversion H; subst. eauto.
    + intros (w' & o' & Hw & Hd). inversion Hw; subst. rewrite Hk in Hd.
      inversion Hd; subst. reflexivity.
    + discriminate.
    + intros (w' & o' & Hw & Hd). inversion Hw; subst. rewrite Hk in Hd. discriminate.
  - split; [discriminate|]. intros (w' & o' & Hw & _). discriminate.
Qed.

(** C10.  When there is no current editor, or the current editor is not a
    diff editor, the [editor] getter answers undefined, and [beginCompute],
    [setComments], [displayCommentThread] and [addCommentAtLine2] return the
    state they were given: no field changes and no effect is added.  When
    the getter answers an editor, it is the modified side of the current
    diff editor. *)
Theorem without_diff_editor_nothing_happens env :
  isDiffEditor env = false ->
  editor env = None
  /\ (forall s, beginCompute env s = s)
  /\ (forall commentInfos s, setComments env commentInfos s = s)
  /\ (forall owner_ thread pendingComment s,
         displayCommentThread env owner_ thread pendingComment s = s)
  /\ (forall lineNumber ownerId_ s, addCommentAtLine2 env lineNumber ownerId_ s = s)
  /\ (forall ed, editor env = Some ed ->
                 exists w original,
                   currentEditor env = Some w /\ editor_of w = MonacoDiffEditor original ed).
Proof.
  intros Hno. apply editor_None_iff in Hno.
  assert (Huri : editorURI env = None) by (unfold editorURI; rewrite Hno; reflexivity).
  split; [exact Hno|].
  split; [intros s; unfold beginCompute; rewrite Huri; reflexivity|].
  split; [intros infos s; unfold setComments; rewrite Hno; reflexivity|].
  split; [intros o t p s; unfold displayCommentThread; rewrite Hno; reflexivity|].
  split; [intros l o s; unfold addCommentAtLine2, addCommentAtLine2_k; rewrite Huri; reflexivity|].
  intros ed Hed. apply editor_Some_modified. exact Hed.
Qed.

Lemma without_diff_editor_nothing_happens_witness :
  editor envPlain = None
  /\ beginCompute envPlain initial = initial
  /\ setComments envPlain [ {| owner := "o1"; threads := [] |} ] initial = initial
  /\ displayCommentThread envPlain "o1" threadT1 None initial = initial
  /\ addCommentAtLine2 envPlain 5 "o1" initial = initial.
Proof.
  destruct (without_diff_editor_nothing_happens envPlain eq_refl)
    as (He & Hb & Hs & Hd & Ha & _).
  split; [exact He|]. split; [apply Hb|]. split; [apply Hs|]. split; [apply Hd|apply Ha].
Defined.

(** ** [indexOf] and [splice] remove the first match *)

Lemma indexOf_In {A} `{EqDecision A} (x : A) (l : list A) :
  In x l -> 0 <= indexOf x l < Z.of_nat (length l).
Proof.
  induction l as [|y l IH]; simpl; [contradiction|].
  intros Hin. destruct (decide (y = x)) as [|Hne]; [lia|].
  destruct Hin as [Heq|Hin]; [contradiction|].
  specialize (IH Hin). destruct (Z.ltb_spec (indexOf x l) 0); lia.
Qed.

Lemma splice1_zero {A} (x : A) (l : list A) : splice1 0 (x :: l) = l.
Proof.
  unfold splice1. simpl Z.ltb. cbv iota.
  replace (Z.to_nat (Z.min 0 (Z.of_nat (length (x :: l))))) with 0%nat by (simpl; lia).
  reflexivity.
Qed.

Lemma splice1_succ {A} (i : Z) (x : A) (l : list A) :
  0 <= i -> splice1 (i + 1) (x :: l) = x :: splice1 i l.
Proof.
  intros Hi. unfold splice1.
  destruct (Z.ltb_spec (i + 1) 0); [lia|]. destruct (Z.ltb_spec i 0); [lia|].
  replace (Z.to_nat (Z.min (i + 1) (Z.of_nat (length (x :: l)))))
    with (S (Z.to_nat (Z.min i (Z.of_nat (length l))))) by (simpl length; lia).
  reflexivity.
Qed.

Lemma removeFirst_none {A} (p : A -> bool) (l : list A) :
  List.filter p l = [] -> removeFirst p l = l.
Proof.
  induction l as [|x l IH]; simpl; [reflexivity|].
  destruct (p x); [discriminate|]. intros H. rewrite IH; [reflexivity|exact H].
Qed.

Lemma splice1_indexOf {A} `{EqDecision A} (p : A -> bool) (l : list A) m ms :
  List.filter p l = m :: ms -> splice1 (indexOf m l) l = removeFirst p l.
Proof.
  induction l as [|x l IH]; simpl; [discriminate|].
  destruct (p x) eqn:Hx.
  - intros Heq. inversion Heq; subst.
    destruct (decide (m = m)); [|contradiction]. apply splice1_zero.
  - intros Heq.
    assert (Hm : In m l /\ p m = true).
    { apply filter_In. rewrite Heq. left. reflexivity. }
    destruct Hm as [Hin Hpm].
    destruct (decide (x = m)) as [->|Hne]; [congruence|].
    pose proof (indexOf_In m l Hin) as Hb.
    destruct (Z.ltb_spec (indexOf m l) 0); [lia|].
    rewrite splice1_succ by lia. rewrite (IH Heq). reflexivity.
Qed.

Lemma removeFirst_filter_le {A} (p q : A -> bool) (l : list A) :
  (length (List.filter q (removeFirst p l)) <= length (List.filter q l))%nat.
Proof.
  induction l as [|x l IH]; simpl; [lia|].
  destruct (p x); simpl; destruct (q x); simpl; lia.
Qed.

Lemma removeFirst_filter_same {A} (p q : A -> bool) (l : list A) :
  (forall x, In x l -> q x = p x) ->
  length (List.filter q (removeFirst p l)) = Nat.pred (length (List.filter q l)).
Proof.
  induction l as [|x l IH]; simpl; [reflexivity|].
  intros Hpq. rewrite (Hpq x (or_introl eq_refl)).
  destruct (p x) eqn:Hx; simpl; [reflexivity|].
  rewrite (Hpq x (or_introl eq_refl)), Hx. apply IH. intros y Hy. apply Hpq. right. exact Hy.
Qed.

Lemma removeFirst_split {A} (p : A -> bool) (l : list A) m ms :
  List.filter p l = m :: ms ->
  exists before after,
    l = before ++ m :: after /\ removeFirst p l = before ++ after
    /\ List.filter p before = [].
Proof.
  induction l as [|x l IH]; simpl; [discriminate|].
  destruct (p x) eqn:Hx.
  - intros Heq. inversion Heq; subst. exists [], l. auto.
  - intros Heq. destruct (IH Heq) as (before & after & Hl & Hr & Hb).
    exists (x :: before), after. simpl. rewrite Hx, <- Hl, Hr. auto.
Qed.

(** ** The callbacks of the reconciler *)

Lemma removeThread_widgets owner_ thread s :
  _commentWidgets (removeThread owner_ thread s)
  = removeFirst (matchesRemoved owner_ thread) (_commentWidgets s).
Proof.
  unfold removeThread.
  destruct (List.filter _ _) as [|m ms] eqn:Hm; simpl.
  - symmetry. apply removeFirst_none. exact Hm.
  - eapply splice1_indexOf. exact Hm.
Qed.

Lemma removeThread_asyncView owner_ thread s :
  asyncView (removeThread owner_ thread s) = asyncView s.
Proof. unfold removeThread. destruct (List.filter _ _); reflexivity. Qed.

Lemma removeThread_snapshotView owner_ thread s :
  snapshotView (removeThread owner_ thread s) = snapshotView s.
Proof. unfold removeThread. destruct (List.filter _ _); reflexivity. Qed.

Lemma changeThread_asyncView owner_ thread s :
  asyncView (changeThread owner_ thread s) = asyncView s.
Proof. unfold changeThread. destruct (List.filter _ _); reflexivity. Qed.

Lemma changeThread_snapshotView owner_ thread s :
  snapshotView (changeThread owner_ thread s) = snapshotView s.
Proof. unfold changeThread. destruct (List.filter _ _); reflexivity. Qed.

Lemma changeThread_widgets owner_ thread s :
  _commentWidgets (changeThread owner_ thread s) = _commentWidgets s.
Proof. unfold changeThread. destruct (List.filter _ _); reflexivity. Qed.

Lemma displayCommentThread_asyncView env owner_ thread pending s :
  asyncView (displayCommentThread env owner_ thread pending s) = asyncView s.
Proof.
  unfold displayCommentThread. destruct (editor env); [|reflexivity].
  destruct (getCommentController env owner_); reflexivity.
Qed.

Lemma addThread_asyncView env owner_ thread s :
  asyncView (addThread env owner_ thread s) = asyncView s.
Proof.
  unfold addThread.
  rewrite <- (displayCommentThread_asyncView env owner_ thread
                (pendingCommentTextOf env owner_ thread s) s).
  reflexivity.
Qed.

(** With an editor, [addThread] appends one widget, built from the owner and
    the thread, and pushes the thread on the owner's first snapshot. *)
Lemma addThread_fields env owner_ thread s ed :
  editor env = Some ed ->
  _commentWidgets (addThread env owner_ thread s)
  = _commentWidgets s ++ widgetsOf (nextWidget s) owner_ [thread]
  /\ nextWidget (addThread env owner_ thread s) = S (nextWidget s)
  /\ _commentInfos (addThread env owner_ thread s) = pushThread owner_ thread (_commentInfos s).
Proof.
  intros Hed. unfold addThread, displayCommentThread. rewrite Hed.
  destruct (getCommentController env owner_); simpl; auto.
Qed.

Lemma removedPhase_widgets u e s :
  _commentWidgets (removedPhase u e s)
  = removals (e_owner e) (List.filter (forResource u) (removed e)) (_commentWidgets s).
Proof.
  unfold removedPhase, removals. generalize (List.filter (forResource u) (removed e)) as ths.
  intros ths. revert s. induction ths as [|t ths IH]; intros s; simpl; [reflexivity|].
  rewrite IH, removeThread_widgets. reflexivity.
Qed.

Lemma removedPhase_snapshotView u e s : snapshotView (removedPhase u e s) = snapshotView s.
Proof. apply (fold_left_view snapshotView). intros. apply removeThread_snapshotView. Qed.

Lemma removedPhase_asyncView u e s : asyncView (removedPhase u e s) = asyncView s.
Proof. apply (fold_left_view asyncView). intros. apply removeThread_asyncView. Qed.

Lemma changedPhase_widgets u e s : _commentWidgets (changedPhase u e s) = _commentWidgets s.
Proof. apply (fold_left_view _commentWidgets). intros. apply changeThread_widgets. Qed.

Lemma changedPhase_snapshotView u e s : snapshotView (changedPhase u e s) = snapshotView s.
Proof. apply (fold_left_view snapshotView). intros. apply changeThread_snapshotView. Qed.

Lemma changedPhase_asyncView u e s : asyncView (changedPhase u e s) = asyncView s.
Proof. apply (fold_left_view asyncView). intros. apply changeThread_asyncView. Qed.

Lemma addedPhase_asyncView env u e s : asyncView (addedPhase env u e s) = asyncView s.
Proof. apply (fold_left_view asyncView). intros. apply addThread_asyncView. Qed.


Lemma addThreads_fields env owner_ ed ths :
  editor env = Some ed ->
  forall s,
    _commentWidgets (fold_left (fun s thread => addThread env owner_ thread s) ths s)
    = _commentWidgets s ++ widgetsOf (nextWidget s) owner_ ths
    /\ _commentInfos (fold_left (fun s thread => addThread env owner_ thread s) ths s)
       = fold_left (fun infos thread => pushThread owner_ thread infos) ths (_commentInfos s).
Proof.
  intros Hed. induction ths as [|t ths IH]; intros s; simpl.
  - rewrite app_nil_r. auto.
  - destruct (addThread_fields env owner_ t s ed Hed) as (Hw & Hn & Hi).
    destruct (IH (addThread env owner_ t s)) as [IHw IHi].
    rewrite IHw, IHi, Hw, Hn, Hi. simpl. rewrite <- app_assoc. auto.
Qed.

(** ** Counting the widgets of a thread *)

Lemma matchesRemoved_key owner_ thread w :
  threadId thread <> "" ->
  matchesRemoved owner_ thread w = matchesKey owner_ (threadId thread) w.
Proof.
  intros Hne. unfold matchesRemoved, matchesKey.
  destruct (bool_decide (widget_owner w = owner_)); simpl; [|reflexivity].
  destruct (bool_decide_reflect (threadId (commentThread w) = threadId thread)) as [Heq|];
    simpl; [|reflexivity].
  rewrite bool_decide_eq_false_2; [reflexivity|]. rewrite Heq. exact Hne.
Qed.

Lemma matchesRemoved_placeholder owner_ thread w :
  threadId thread = "" -> matchesRemoved owner_ thread w = false.
Proof.
  intros He. unfold matchesRemoved. rewrite He.
  destruct (bool_decide (widget_owner w = owner_)); simpl; [|reflexivity].
  destruct (bool_decide (threadId (commentThread w) = "")); reflexivity.
Qed.

Lemma filter_none {A} (p : A -> bool) (l : list A) :
  (forall x, p x = false) -> List.filter p l = [].
Proof.
  intros Hp. induction l as [|x l IH]; simpl; [reflexivity|]. rewrite Hp. exact IH.
Qed.

Lemma widgetsFor_app owner_ tid ws1 ws2 :
  widgetsFor owner_ tid (ws1 ++ ws2) = widgetsFor owner_ tid ws1 ++ widgetsFor owner_ tid ws2.
Proof. unfold widgetsFor. apply List.filter_app. Qed.

Lemma widgetsFor_widgetsOf owner' tid n owner_ ths :
  length (widgetsFor owner' tid (widgetsOf n owner_ ths))
  = if bool_decide (owner_ = owner') then occurrences tid ths else 0%nat.
Proof.
  revert n. unfold widgetsFor, occurrences.
  induction ths as [|t ths IH]; intros n; simpl.
  - destruct (bool_decide _); reflexivity.
  - unfold matchesKey at 1. simpl.
    destruct (bool_decide (owner_ = owner')); simpl; [|apply IH].
    destruct (bool_decide (threadId t = tid)); simpl; rewrite IH; reflexivity.
Qed.

Lemma occurrences_pos tid ths :
  (1 <= occurrences tid ths)%nat -> exists t, In t ths /\ threadId t = tid.
Proof.
  unfold occurrences. intros Hpos.
  destruct (List.filter _ ths) as [|t rest] eqn:Hf; [simpl in Hpos; lia|].
  assert (Hin : In t (List.filter (fun t => bool_decide (threadId t = tid)) ths))
    by (rewrite Hf; left; reflexivity).
  apply filter_In in Hin. destruct Hin as [Hin Ht].
  exists t. split; [exact Hin|]. apply bool_decide_eq_true_1 in Ht. exact Ht.
Qed.


(** Removals never add a widget to any thread. *)
Lemma removals_le owner_ ths owner' tid :
  forall ws,
    (length (widgetsFor owner' tid (removals owner_ ths ws)) <= length (widgetsFor owner' tid ws))%nat.
Proof.
  unfold removals. induction ths as [|t ths IH]; intros ws; simpl; [lia|].
  etransitivity; [apply IH|]. apply removeFirst_filter_le.
Qed.

(** A thread that is removed and had at most one widget has none left. *)
Lemma removals_clear owner_ ths tid :
  tid <> "" ->
  forall ws,
    (length (widgetsFor owner_ tid ws) <= 1)%nat ->
    (exists t, In t ths /\ threadId t = tid) ->
    length (widgetsFor owner_ tid (removals owner_ ths ws)) = 0%nat.
Proof.
  intros Hne. induction ths as [|r ths IH]; intros ws Hone (t & Hin & Ht).
  - contradiction.
  - change (removals owner_ (r :: ths) ws)
      with (removals owner_ ths (removeFirst (matchesRemoved owner_ r) ws)).
    destruct Hin as [->|Hin].
    + pose proof (removals_le owner_ ths owner_ tid
                    (removeFirst (matchesRemoved owner_ t) ws)) as Hle.
      unfold widgetsFor in Hle at 2.
      rewrite (removeFirst_filter_same (matchesRemoved owner_ t) (matchesKey owner_ tid)) in Hle.
      * unfold widgetsFor in Hone. lia.
      * intros x _. rewrite <- Ht. symmetry. apply matchesRemoved_key. rewrite Ht. exact Hne.
    + apply IH; [|eauto].
      etransitivity; [apply removeFirst_filter_le|exact Hone].
Qed.

Lemma length_zero_nil {A} (l : list A) : length l = 0%nat -> l = [].
Proof. destruct l; [reflexivity|discriminate]. Qed.

(** ** What the handler does to the widget list *)

Lemma editorURI_editor env u : editorURI env = Some u -> exists ed, editor env = Some ed.
Proof. unfold editorURI. destruct (editor env); [eauto|discriminate]. Qed.

Lemma snapshotView_inv s s' :
  snapshotView s' = snapshotView s ->
  _commentInfos s' = _commentInfos s /\ nextWidget s' = nextWidget s.
Proof. unfold snapshotView. intros H. inversion H. auto. Qed.

Lemma asyncView_inv s s' :
  asyncView s' = asyncView s ->
  _computePromise s' = _computePromise s /\ suspended s' = suspended s
  /\ inflight s' = inflight s /\ _pendingCommentCache s' = _pendingCommentCache s.
Proof. unfold asyncView. intros H. inversion H. auto. Qed.

(** Removals come first: the batch leaves the widgets that survive the
    removals, followed by one new widget per added thread of the resource. *)
Lemma applyThreadDelta_widgets env u e s :
  editorURI env = Some u ->
  ownerIsKnown (e_owner e) s ->
  _commentWidgets (applyThreadDelta env u e s)
  = removals (e_owner e) (List.filter (forResource u) (removed e)) (_commentWidgets s)
    ++ widgetsOf (nextWidget s) (e_owner e) (List.filter (forResource u) (added e)).
Proof.
  intros Hu Hknown. destruct (editorURI_editor env u Hu) as [ed Hed].
  unfold applyThreadDelta, ownerIsKnown in *.
  destruct (List.filter _ (_commentInfos s)); [contradiction|].
  unfold addedPhase.
  destruct (addThreads_fields env (e_owner e) ed (List.filter (forResource u) (added e)) Hed
              (changedPhase u e (removedPhase u e s))) as [Hw _].
  rewrite Hw, changedPhase_widgets, removedPhase_widgets.
  destruct (snapshotView_inv _ _ (changedPhase_snapshotView u e (removedPhase u e s))) as [_ ->].
  destruct (snapshotView_inv _ _ (removedPhase_snapshotView u e s)) as [_ ->].
  reflexivity.
Qed.

Lemma applyThreadDelta_asyncView env u e s :
  asyncView (applyThreadDelta env u e s) = asyncView s.
Proof.
  unfold applyThreadDelta. destruct (List.filter _ _); [reflexivity|].
  rewrite addedPhase_asyncView, changedPhase_asyncView. apply removedPhase_asyncView.
Qed.

Lemma onDidUpdateCommentThreads_applies env u e s :
  editorURI env = Some u ->
  _computePromise s = None ->
  onDidUpdateCommentThreads env e s = applyThreadDelta env u e s.
Proof. intros Hu Hp. unfold onDidUpdateCommentThreads. rewrite Hu, Hp. reflexivity. Qed.

(** ** Uniqueness of widgets under fresh additions *)

Lemma freshBatch_spec env u e s :
  editorURI env = Some u ->
  freshBatch env e s = true ->
  forall t,
    In t (List.filter (forResource u) (added e)) ->
    threadId t <> "" ->
    occurrences (threadId t) (List.filter (forResource u) (added e)) = 1%nat
    /\ (length (widgetsFor (e_owner e) (threadId t) (_commentWidgets s)) = 0%nat
        \/ (1 <= occurrences (threadId t) (List.filter (forResource u) (removed e)))%nat).
Proof.
  intros Hu Hfresh t Hin Hne. unfold freshBatch in Hfresh. rewrite Hu in Hfresh.
  rewrite forallb_forall in Hfresh. specialize (Hfresh t Hin).
  apply orb_prop in Hfresh. destruct Hfresh as [Hemp|Hfresh].
  - apply bool_decide_eq_true_1 in Hemp. contradiction.
  - apply andb_prop in Hfresh. destruct Hfresh as [Hocc Hsrc].
    apply Nat.eqb_eq in Hocc. split; [exact Hocc|].
    apply orb_prop in Hsrc. destruct Hsrc as [H0|H1].
    + left. apply Nat.eqb_eq in H0. exact H0.
    + right. apply Nat.leb_le in H1. exact H1.
Qed.

Lemma applyThreadDelta_atMostOne env u e s :
  editorURI env = Some u ->
  freshBatch env e s = true ->
  atMostOnePerThread (_commentWidgets s) ->
  atMostOnePerThread (_commentWidgets (applyThreadDelta env u e s)).
Proof.
  intros Hu Hfresh Hone.
  destruct (List.filter (fun info => bool_decide (owner info = e_owner e)) (_commentInfos s))
    as [|info infos] eqn:Hknown.
  - unfold applyThreadDelta. rewrite Hknown. exact Hone.
  - rewrite (applyThreadDelta_widgets env u e s Hu)
      by (unfold ownerIsKnown; rewrite Hknown; discriminate).
    intros owner' tid Hne.
    rewrite widgetsFor_app, length_app, widgetsFor_widgetsOf.
    pose proof (removals_le (e_owner e) (List.filter (forResource u) (removed e)) owner' tid
                  (_commentWidgets s)) as Hle.
    specialize (Hone owner' tid Hne) as Hone'.
    destruct (bool_decide_reflect (e_owner e = owner')) as [<-|Hother]; [|lia].
    destruct (occurrences tid (List.filter (forResource u) (added e))) as [|k] eqn:Hocc; [lia|].
    destruct (occurrences_pos tid (List.filter (forResource u) (added e))) as (t & Hin & Ht);
      [lia|].
    subst tid.
    destruct (freshBatch_spec env u e s Hu Hfresh t Hin Hne) as [Hk Hsrc].
    assert (Hgone : length (widgetsFor (e_owner e) (threadId t)
                              (removals (e_owner e) (List.filter (forResource u) (removed e))
                                 (_commentWidgets s))) = 0%nat).
    { destruct Hsrc as [H0|H1]; [lia|].
      apply removals_clear; [exact Hne|exact Hone'|]. apply occurrences_pos. exact H1. }
    lia.
Qed.

Lemma onDidUpdateCommentThreads_widgetsConsistent env e s :
  widgetsConsistent s ->
  freshBatch env e s = true ->
  widgetsConsistent (onDidUpdateCommentThreads env e s).
Proof.
  intros (Hone & Hp & Hsus) Hfresh.
  unfold onDidUpdateCommentThreads. destruct (editorURI env) as [u|] eqn:Hu;
    [|split; auto]. rewrite Hp.
  destruct (asyncView_inv _ _ (applyThreadDelta_asyncView env u e s)) as (Hcp & Hs & _).
  split; [|rewrite Hcp, Hs; auto].
  apply applyThreadDelta_atMostOne; assumption.
Qed.

Lemma fireThreadsUpdated_widgetsConsistent n env e :
  forall s,
    widgetsConsistent s ->
    freshRuns n env e s = true ->
    widgetsConsistent (fireThreadsUpdated n env e s).
Proof.
  induction n as [|n IH]; intros s Hs Hfresh; simpl; [exact Hs|].
  simpl in Hfresh. apply andb_prop in Hfresh. destruct Hfresh as [Hnow Hlater].
  apply IH; [|exact Hlater]. apply onDidUpdateCommentThreads_widgetsConsistent; assumption.
Qed.

Lemma step_widgetsConsistent s i :
  widgetsConsistent s ->
  match i with
  | ThreadsUpdated env e => freshRuns (batchHandlers s) env e s = true
  | _ => True
  end ->
  widgetsConsistent (step s i).
Proof.
  intros (Hone & Hp & Hsus) Hfresh.
  destruct i as [env l e|env e|env|env n comments|env p|env e]; simpl.
  - destruct (addOrToggleCommentAtLine_quiet env l e s) as [Hv _].
    unfold reconcilerView in Hv. inversion Hv as [[Hw Hi Hc Hcp Hn Hin Hs]].
    unfold widgetsConsistent. rewrite Hw, Hcp, Hs. auto.
  - apply fireThreadsUpdated_widgetsConsistent; [split; auto|exact Hfresh].
  - unfold onCreated_diffEditor, beginCompute. destruct (editorURI env); split; auto.
  - unfold beginCompute_resume. destruct (inflight s !! n); [|split; auto].
    unfold setComments. destruct (editor env); split; auto.
  - unfold resumeHandlers. rewrite Hsus. simpl. split; auto.
  - destruct (onDidSetResourceCommentInfos_widgets env e s) as (Hw & Hcp & Hs).
    unfold widgetsConsistent. rewrite Hw, Hcp, Hs. auto.
Qed.

Lemma steps_widgetsConsistent inputs :
  forall s,
    widgetsConsistent s ->
    additionsFresh inputs s = true ->
    widgetsConsistent (fold_left step inputs s).
Proof.
  induction inputs as [|i inputs IH]; intros s Hs Hfresh; simpl; [exact Hs|].
  simpl in Hfresh. apply andb_prop in Hfresh. destruct Hfresh as [Hi Hrest].
  apply IH; [|exact Hrest]. apply step_widgetsConsistent; [exact Hs|].
  destruct i; auto.
Qed.

Lemma initial_widgetsConsistent : widgetsConsistent initial.
Proof. split; [|split; reflexivity]. intros o tid _. simpl. lia. Qed.

(** C4 (as it holds).  A batch is handled once by every handler subscribed
    (one for each diff editor created).  In every state reached from the
    initial one by inputs in which every such handler run adds only fresh
    threads (each added thread of the resource with a non-empty threadId
    occurs once among the additions and is not displayed for the owner when
    the handler runs, or is removed by the same batch), the widget list
    holds at most one widget per (owner, threadId) with a non-empty
    threadId. *)
Theorem fresh_additions_keep_one_widget_per_thread (inputs : list Input) :
  additionsFresh inputs initial = true ->
  atMostOnePerThread (_commentWidgets (run inputs)).
Proof.
  intros Hfresh.
  destruct (steps_widgetsConsistent inputs initial initial_widgetsConsistent Hfresh) as [H _].
  exact H.
Qed.

Lemma fresh_additions_keep_one_widget_per_thread_witness :
  atMostOnePerThread
    (_commentWidgets
       (run (ownerKnown ++ [ ThreadsUpdated envOne (batchOf [threadT1] [] []);
                             DiffEditorCreated envOne;
                             ThreadsUpdated envOne (batchOf [threadT1] [threadT1] []) ]))).
Proof.
  apply (fresh_additions_keep_one_widget_per_thread
           (ownerKnown ++ [ ThreadsUpdated envOne (batchOf [threadT1] [] []);
                            DiffEditorCreated envOne;
                            ThreadsUpdated envOne (batchOf [threadT1] [threadT1] []) ])).
  vm_compute. reflexivity.
Defined.

(** C4 (as stated) fails: the same thread added by two batches is displayed
    twice, and so is a thread added by one batch while two diff editors have
    been created, each with its handler. *)
Lemma one_widget_per_thread_counterexample :
  ~ atMostOnePerThread
      (_commentWidgets
         (run (ownerKnown ++ [ ThreadsUpdated envOne (batchOf [threadT1] [] []);
                               ThreadsUpdated envOne (batchOf [threadT1] [] []) ])))
  /\ ~ atMostOnePerThread
        (_commentWidgets
           (run (ownerKnown ++ [ DiffEditorCreated envOne;
                                 ThreadsUpdated envOne (batchOf [threadT1] [] []) ]))).
Proof.
  assert (Hne : "t1" <> "") by discriminate.
  split; intros H; specialize (H "o1" "t1"); vm_compute in H; specialize (H Hne); lia.
Qed.

(** ** Removal of one thread *)

Lemma removeThread_placeholder owner_ thread s :
  threadId thread = "" -> removeThread owner_ thread s = s.
Proof.
  intros He. unfold removeThread.
  rewrite filter_none; [reflexivity|].
  intros w. apply matchesRemoved_placeholder. exact He.
Qed.

Lemma removeThread_unique owner_ thread s w :
  threadId thread <> "" ->
  widgetsFor owner_ (threadId thread) (_commentWidgets s) = [w] ->
  exists before after,
    _commentWidgets s = before ++ w :: after
    /\ _commentWidgets (removeThread owner_ thread s) = before ++ after
    /\ effects (removeThread owner_ thread s) = effects s ++ [Dispose w]
    /\ widgetsFor owner_ (threadId thread) (_commentWidgets (removeThread owner_ thread s)) = [].
Proof.
  intros Hne Hw.
  assert (Hm : List.filter (matchesRemoved owner_ thread) (_commentWidgets s) = [w]).
  { rewrite <- Hw. unfold widgetsFor. apply List.filter_ext.
    intros x. apply matchesRemoved_key. exact Hne. }
  destruct (removeFirst_split _ _ _ _ Hm) as (before & after & Hl & Hr & _).
  exists before, after. split; [exact Hl|].
  split; [rewrite removeThread_widgets; exact Hr|].
  split; [unfold removeThread; rewrite Hm; reflexivity|].
  apply length_zero_nil. rewrite removeThread_widgets. unfold widgetsFor.
  rewrite (removeFirst_filter_same (matchesRemoved owner_ thread)).
  - fold (widgetsFor owner_ (threadId thread) (_commentWidgets s)). rewrite Hw. reflexivity.
  - intros x _. symmetry. apply matchesRemoved_key. exact Hne.
Qed.

Lemma onDidUpdateCommentThreads_single_removal env u owner_ thread s :
  editorURI env = Some u ->
  _computePromise s = None ->
  ownerIsKnown owner_ s ->
  forResource u thread = true ->
  onDidUpdateCommentThreads env
    {| e_owner := owner_; added := []; removed := [thread]; changed := [] |} s
  = removeThread owner_ thread s.
Proof.
  intros Hu Hp Hknown Hres.
  rewrite (onDidUpdateCommentThreads_applies env u _ s Hu Hp).
  unfold applyThreadDelta, ownerIsKnown in *. simpl.
  destruct (List.filter _ (_commentInfos s)); [contradiction|].
  unfold addedPhase, changedPhase, removedPhase. simpl. rewrite Hres. reflexivity.
Qed.

(** ** Owners stay known *)

Lemma ownerIsKnown_iff owner_ s :
  ownerIsKnown owner_ s <-> In owner_ (map owner (_commentInfos s)).
Proof.
  unfold ownerIsKnown. induction (_commentInfos s) as [|info infos IH]; simpl.
  - split; [intros H; contradiction|intros []].
  - destruct (bool_decide_reflect (owner info = owner_)) as [Heq|Hne].
    + split; [auto|discriminate].
    + rewrite IH. split; [auto|]. intros [Heq|Hin]; [contradiction|exact Hin].
Qed.

Lemma pushThread_owners owner_ thread infos :
  map owner (pushThread owner_ thread infos) = map owner infos.
Proof.
  induction infos as [|info infos IH]; simpl; [reflexivity|].
  destruct (bool_decide (owner info = owner_)); simpl; [reflexivity|].
  rewrite IH. reflexivity.
Qed.

Lemma addThread_owners env owner_ thread s :
  map owner (_commentInfos (addThread env owner_ thread s)) = map owner (_commentInfos s).
Proof.
  unfold addThread. simpl. rewrite pushThread_owners.
  unfold displayCommentThread. destruct (editor env); [|reflexivity].
  destruct (getCommentController env owner_); reflexivity.
Qed.

Lemma applyThreadDelta_owners env u e s :
  map owner (_commentInfos (applyThreadDelta env u e s)) = map owner (_commentInfos s).
Proof.
  unfold applyThreadDelta. destruct (List.filter _ _); [reflexivity|].
  unfold addedPhase.
  rewrite (fold_left_view (fun s => map owner (_commentInfos s)));
    [|intros; apply addThread_owners].
  destruct (snapshotView_inv _ _ (changedPhase_snapshotView u e (removedPhase u e s))) as [-> _].
  destruct (snapshotView_inv _ _ (removedPhase_snapshotView u e s)) as [-> _].
  reflexivity.
Qed.

Lemma removeFirst_app_none {A} (p : A -> bool) (l1 l2 : list A) :
  List.filter p l1 = [] -> removeFirst p (l1 ++ l2) = l1 ++ removeFirst p l2.
Proof.
  induction l1 as [|x l1 IH]; simpl; [reflexivity|].
  destruct (p x); [discriminate|]. intros H. rewrite IH; [reflexivity|exact H].
Qed.

(** C6 (as it holds).  For a thread of the active resource with a non-empty
    threadId and an owner with a snapshot: the batch that adds it gives the
    thread one more widget, and the batch that then removes it takes one
    away, so the thread has as many widgets as before the two batches.  When
    none was displayed before, none is left and the widget list is the one
    before the two batches. *)
Theorem add_then_remove_leaves_no_widget env u owner_ thread s :
  editorURI env = Some u ->
  _computePromise s = None ->
  ownerIsKnown owner_ s ->
  forResource u thread = true ->
  threadId thread <> "" ->
  length (widgetsFor owner_ (threadId thread)
            (_commentWidgets
               (onDidUpdateCommentThreads env
                  {| e_owner := owner_; added := [thread]; removed := []; changed := [] |} s)))
  = S (length (widgetsFor owner_ (threadId thread) (_commentWidgets s)))
  /\ length (widgetsFor owner_ (threadId thread)
               (_commentWidgets
                  (onDidUpdateCommentThreads env
                     {| e_owner := owner_; added := []; removed := [thread]; changed := [] |}
                     (onDidUpdateCommentThreads env
                        {| e_owner := owner_; added := [thread]; removed := []; changed := [] |}
                        s))))
     = length (widgetsFor owner_ (threadId thread) (_commentWidgets s))
  /\ (widgetsFor owner_ (threadId thread) (_commentWidgets s) = [] ->
      widgetsFor owner_ (threadId thread)
        (_commentWidgets
           (onDidUpdateCommentThreads env
              {| e_owner := owner_; added := []; removed := [thread]; changed := [] |}
              (onDidUpdateCommentThreads env
                 {| e_owner := owner_; added := [thread]; removed := []; changed := [] |} s)))
      = []
      /\ _commentWidgets
           (onDidUpdateCommentThreads env
              {| e_owner := owner_; added := []; removed := [thread]; changed := [] |}
              (onDidUpdateCommentThreads env
                 {| e_owner := owner_; added := [thread]; removed := []; changed := [] |} s))
         = _commentWidgets s).
Proof.
  intros Hu Hp Hknown Hres Hne.
  set (e1 := {| e_owner := owner_; added := [thread]; removed := []; changed := [] |}).
  rewrite (onDidUpdateCommentThreads_applies env u e1 s Hu Hp).
  assert (Hw1 : _commentWidgets (applyThreadDelta env u e1 s)
                = _commentWidgets s ++ widgetsOf (nextWidget s) owner_ [thread]).
  { rewrite (applyThreadDelta_widgets env u e1 s Hu Hknown). simpl. rewrite Hres. reflexivity. }
  assert (Hkey : matchesKey owner_ (threadId thread)
                   {| wid := nextWidget s; widget_owner := owner_; commentThread := thread;
                      afterLineNumber := startLineNumber (range thread); heightInLines := 5 |}
                 = true).
  { unfold matchesKey. simpl. rewrite !bool_decide_eq_true_2; reflexivity. }
  assert (Hp1 : _computePromise (applyThreadDelta env u e1 s) = None).
  { destruct (asyncView_inv _ _ (applyThreadDelta_asyncView env u e1 s)) as (-> & _). exact Hp. }
  assert (Hk1 : ownerIsKnown owner_ (applyThreadDelta env u e1 s)).
  { apply ownerIsKnown_iff. rewrite applyThreadDelta_owners. apply ownerIsKnown_iff. exact Hknown. }
  rewrite (onDidUpdateCommentThreads_single_removal env u owner_ thread _ Hu Hp1 Hk1 Hres).
  rewrite removeThread_widgets, Hw1.
  assert (Hcount1 : length (widgetsFor owner_ (threadId thread)
                              (_commentWidgets s ++ widgetsOf (nextWidget s) owner_ [thread]))
                    = S (length (widgetsFor owner_ (threadId thread) (_commentWidgets s)))).
  { rewrite widgetsFor_app, length_app. unfold widgetsFor at 2. simpl. rewrite Hkey. simpl. lia. }
  split; [exact Hcount1|]. split.
  - unfold widgetsFor at 1.
    rewrite (removeFirst_filter_same (matchesRemoved owner_ thread)).
    + fold (widgetsFor owner_ (threadId thread)
              (_commentWidgets s ++ widgetsOf (nextWidget s) owner_ [thread])).
      rewrite Hcount1. reflexivity.
    + intros x _. symmetry. apply matchesRemoved_key. exact Hne.
  - intros Hnone.
    assert (Hnone' : List.filter (matchesRemoved owner_ thread) (_commentWidgets s) = []).
    { rewrite <- Hnone. unfold widgetsFor. apply List.filter_ext.
      intros x. apply matchesRemoved_key. exact Hne. }
    rewrite (removeFirst_app_none _ _ _ Hnone'). simpl.
    rewrite (matchesRemoved_key owner_ thread _ Hne), Hkey, app_nil_r.
    split; [exact Hnone|reflexivity].
Qed.

Lemma add_then_remove_leaves_no_widget_witness :
  widgetsFor "o1" "t1"
    (_commentWidgets
       (onDidUpdateCommentThreads envOne (batchOf [] [threadT1] [])
          (onDidUpdateCommentThreads envOne (batchOf [threadT1] [] []) (run ownerKnown))))
  = [].
Proof.
  assert (Hknown : ownerIsKnown "o1" (run ownerKnown)) by (vm_compute; discriminate).
  assert (Hne : threadId threadT1 <> "") by discriminate.
  destruct (add_then_remove_leaves_no_widget envOne aTs "o1" threadT1 (run ownerKnown)
              eq_refl eq_refl Hknown eq_refl Hne) as (_ & _ & Hgone).
  destruct (Hgone eq_refl) as [Hnone _]. exact Hnone.
Defined.

(** C6 (as stated) fails for a thread that is not yet persisted: its removal
    matches no widget, so the widget that the addition created stays.  It
    also fails for a thread that is displayed already: the two batches leave
    the widget it had. *)
Lemma add_then_remove_placeholder_counterexample :
  (forResource aTs threadPlaceholder = true
   /\ ownerIsKnown "o1" (run ownerKnown)
   /\ _commentWidgets
        (onDidUpdateCommentThreads envOne (batchOf [] [threadPlaceholder] [])
           (onDidUpdateCommentThreads envOne (batchOf [threadPlaceholder] [] []) (run ownerKnown)))
      = [ {| wid := 0; widget_owner := "o1"; commentThread := threadPlaceholder;
             afterLineNumber := 3; heightInLines := 5 |} ]
   /\ widgetsFor "o1" (threadId threadPlaceholder)
        (_commentWidgets
           (onDidUpdateCommentThreads envOne (batchOf [] [threadPlaceholder] [])
              (onDidUpdateCommentThreads envOne (batchOf [threadPlaceholder] [] [])
                 (run ownerKnown))))
      <> [])
  /\ widgetsFor "o1" (threadId threadT1)
       (_commentWidgets
          (onDidUpdateCommentThreads envOne (batchOf [] [threadT1] [])
             (onDidUpdateCommentThreads envOne (batchOf [threadT1] [] [])
                (run (ownerKnown ++ [ThreadsUpdated envOne (batchOf [threadT1] [] [])])))))
     <> [].
Proof.
  split.
  - split; [reflexivity|]. split; [vm_compute; discriminate|].
    split; [reflexivity|]. vm_compute. discriminate.
  - vm_compute. discriminate.
Qed.

(** C7 (as it holds).  Removals are applied before additions: the widget
    list after a batch is what the removals leave, followed by one new
    widget per added thread of the resource.  When a non-empty threadId with
    at most one widget is removed and added once by the same batch, the
    removals leave no widget of it, and after the batch it has exactly one,
    the new one. *)
Theorem replaced_thread_has_one_widget env u e tid s :
  editorURI env = Some u ->
  _computePromise s = None ->
  ownerIsKnown (e_owner e) s ->
  tid <> "" ->
  (length (widgetsFor (e_owner e) tid (_commentWidgets s)) <= 1)%nat ->
  (1 <= occurrences tid (List.filter (forResource u) (removed e)))%nat ->
  occurrences tid (List.filter (forResource u) (added e)) = 1%nat ->
  _commentWidgets (onDidUpdateCommentThreads env e s)
  = removals (e_owner e) (List.filter (forResource u) (removed e)) (_commentWidgets s)
    ++ widgetsOf (nextWidget s) (e_owner e) (List.filter (forResource u) (added e))
  /\ widgetsFor (e_owner e) tid
       (removals (e_owner e) (List.filter (forResource u) (removed e)) (_commentWidgets s)) = []
  /\ length (widgetsFor (e_owner e) tid (_commentWidgets (onDidUpdateCommentThreads env e s)))
     = 1%nat.
Proof.
  intros Hu Hp Hknown Hne Hone Hrem Hadd.
  rewrite (onDidUpdateCommentThreads_applies env u e s Hu Hp).
  rewrite (applyThreadDelta_widgets env u e s Hu Hknown).
  assert (Hgone : length (widgetsFor (e_owner e) tid
                            (removals (e_owner e) (List.filter (forResource u) (removed e))
                               (_commentWidgets s))) = 0%nat).
  { apply removals_clear; [exact Hne|exact Hone|]. apply occurrences_pos. exact Hrem. }
  split; [reflexivity|]. split; [apply length_zero_nil; exact Hgone|].
  rewrite widgetsFor_app, length_app, Hgone, widgetsFor_widgetsOf.
  rewrite bool_decide_eq_true_2 by reflexivity. exact Hadd.
Qed.

Lemma replaced_thread_has_one_widget_witness :
  length (widgetsFor "o1" "t1"
            (_commentWidgets
               (onDidUpdateCommentThreads envOne (batchOf [threadT1] [threadT1] [])
                  (run (ownerKnown ++ [ThreadsUpdated envOne (batchOf [threadT1] [] [])])))))
  = 1%nat.
Proof.
  assert (Hknown : ownerIsKnown "o1"
                     (run (ownerKnown ++ [ThreadsUpdated envOne (batchOf [threadT1] [] [])])))
    by (vm_compute; discriminate).
  assert (Hne : "t1" <> "") by discriminate.
  assert (Hone : (length (widgetsFor "o1" "t1"
                            (_commentWidgets
                               (run (ownerKnown
                                       ++ [ThreadsUpdated envOne (batchOf [threadT1] [] [])]))))
                  <= 1)%nat) by (vm_compute; lia).
  assert (Hrem : (1 <= occurrences "t1" (List.filter (forResource aTs) [threadT1]))%nat)
    by (vm_compute; lia).
  destruct (replaced_thread_has_one_widget envOne aTs (batchOf [threadT1] [threadT1] []) "t1"
              (run (ownerKnown ++ [ThreadsUpdated envOne (batchOf [threadT1] [] [])]))
              eq_refl eq_refl Hknown Hne Hone Hrem eq_refl) as (_ & _ & H).
  exact H.
Defined.

(** C7 (as stated) fails for the empty threadId: the removal matches no
    widget, so the placeholder displayed before the batch stays next to the
    one the batch adds.  It also fails for a thread displayed twice: the
    batch removes one widget and adds one. *)
Lemma replaced_placeholder_counterexample :
  length (widgetsFor "o1" (threadId threadPlaceholder)
            (_commentWidgets
               (onDidUpdateCommentThreads envOne
                  (batchOf [threadPlaceholder] [threadPlaceholder] [])
                  (run (ownerKnown
                          ++ [ThreadsUpdated envOne (batchOf [threadPlaceholder] [] [])])))))
  <> 1%nat
  /\ length (widgetsFor "o1" (threadId threadT1)
               (_commentWidgets
                  (onDidUpdateCommentThreads envOne (batchOf [threadT1] [threadT1] [])
                     (run (ownerKnown
                             ++ [ ThreadsUpdated envOne (batchOf [threadT1] [] []);
                                  ThreadsUpdated envOne (batchOf [threadT1] [] []) ])))))
     <> 1%nat.
Proof. split; vm_compute; discriminate. Qed.

(** ** Pending text and the created widget *)

Lemma displayCommentThread_ignores_pendingComment env owner_ thread pending1 pending2 s :
  displayCommentThread env owner_ thread pending1 s
  = displayCommentThread env owner_ thread pending2 s.
Proof. reflexivity. Qed.

(** ** The stored promise *)

Lemma step_no_promise s i :
  _computePromise s = None -> suspended s = [] ->
  _computePromise (step s i) = None /\ suspended (step s i) = [].
Proof.
  intros Hp Hsus. destruct i as [env l e|env e|env|env n comments|env p|env e]; simpl.
  - destruct (addOrToggleCommentAtLine_quiet env l e s) as [Hv _].
    unfold reconcilerView in Hv. inversion Hv as [[Hw Hi Hc Hcp Hn Hin Hs]].
    rewrite Hcp, Hs. auto.
  - apply (fireThreadsUpdated_kept
             (fun s => _computePromise s = None /\ suspended s = [])); [|auto].
    clear. intros s [Hp Hsus].
    unfold onDidUpdateCommentThreads. destruct (editorURI env) as [u|]; [|auto].
    rewrite Hp.
    destruct (asyncView_inv _ _ (applyThreadDelta_asyncView env u e s)) as (-> & -> & _).
    auto.
  - unfold onCreated_diffEditor, beginCompute. destruct (editorURI env); auto.
  - unfold beginCompute_resume. destruct (inflight s !! n); [|auto].
    unfold setComments. destruct (editor env); auto.
  - unfold resumeHandlers. rewrite Hsus. simpl. auto.
  - destruct (onDidSetResourceCommentInfos_widgets env e s) as (_ & -> & ->). auto.
Qed.

Lemma run_no_promise inputs :
  _computePromise (run inputs) = None /\ suspended (run inputs) = [].
Proof.
  pattern inputs. apply List.rev_ind; clear inputs.
  - split; reflexivity.
  - intros i inputs [Hp Hs]. rewrite run_snoc. apply step_no_promise; assumption.
Qed.

(** C3.  No method stores a promise in [_computePromise], so in every run
    the field is undefined and no handler is ever suspended: a batch is
    applied in the turn it arrives.  With the fetch of [beginCompute] still
    in flight, the batch that adds [t1] creates its widget at once (one for
    each of the two handlers subscribed by then) and the fetch stays in
    flight; when the fetch settles, its snapshot replaces the one the batch
    had extended.  During the first fetch, when no owner is
    known yet, the batch is dropped and no widget appears after the fetch. *)
Theorem batch_does_not_wait_for_fetch :
  (forall inputs, _computePromise (run inputs) = None /\ suspended (run inputs) = [])
  /\ inflight (run (ownerKnown ++ [DiffEditorCreated envOne])) = [aTs]
  /\ _commentWidgets
       (run (ownerKnown ++ [ DiffEditorCreated envOne;
                             ThreadsUpdated envOne (batchOf [threadT1] [] []) ]))
     = [ widgetT1 0; widgetT1 1 ]
  /\ inflight
       (run (ownerKnown ++ [ DiffEditorCreated envOne;
                             ThreadsUpdated envOne (batchOf [threadT1] [] []) ]))
     = [aTs]
  /\ _commentInfos
       (run (ownerKnown ++ [ DiffEditorCreated envOne;
                             ThreadsUpdated envOne (batchOf [threadT1] [] []) ]))
     = [ {| owner := "o1"; threads := [threadT1; threadT1] |} ]
  /\ _commentInfos
       (run (ownerKnown ++ [ DiffEditorCreated envOne;
                             ThreadsUpdated envOne (batchOf [threadT1] [] []);
                             CommentsFetched envOne 0 [ Some {| owner := "o1"; threads := [] |} ] ]))
     = [ {| owner := "o1"; threads := [] |} ]
  /\ _commentWidgets
       (run [ DiffEditorCreated envOne;
              ThreadsUpdated envOne (batchOf [threadT1] [] []);
              CommentsFetched envOne 0 [ Some {| owner := "o1"; threads := [] |} ] ])
     = [].
Proof.
  split; [apply run_no_promise|]. repeat split; reflexivity.
Qed.

(** * Further properties of the controller *)

(** ** Requests on a controller at rest *)

Lemma editorURI_currentEditor env u :
  editorURI env = Some u -> exists w, currentEditor env = Some w.
Proof.
  unfold editorURI, editor. destruct (currentEditor env); [eauto|discriminate].
Qed.

(** X1.  A request that finds the flag clear and the queue empty leaves the
    flag clear exactly when a widget sits on the line, or the range
    decorator names one provider for the line and the modified side of the
    current diff editor has a model.  In every other case the flag stays
    set and the request has caused no effect. *)
Theorem request_releases_iff env lineNumber e s :
  _addInProgress s = false ->
  _emptyThreadsToAddQueue s = [] ->
  (_addInProgress (addOrToggleCommentAtLine env lineNumber e s) = false <->
   (List.filter (fun widget => getGlyphPosition env widget =? lineNumber) (_commentWidgets s) <> []
    \/ exists info u, getMatchedCommentAction env lineNumber = [info] /\ editorURI env = Some u))
  /\ (_addInProgress (addOrToggleCommentAtLine env lineNumber e s) = true ->
      effects (addOrToggleCommentAtLine env lineNumber e s) = effects s)
  /\ _emptyThreadsToAddQueue (addOrToggleCommentAtLine env lineNumber e s) = [].
Proof.
  intros Hflag Hq.
  unfold addOrToggleCommentAtLine, addOrToggleCommentAtLine_k, addCommentAtLine_k,
    addCommentAtLine2_k, processNextThreadToAdd.
  rewrite Hflag. simpl.
  destruct (List.filter _ (_commentWidgets s)) as [|w ws] eqn:Hocc.
  - destruct (currentEditor env) as [cw|] eqn:Hcur.
    + destruct (getMatchedCommentAction env lineNumber) as [|info [|info' more]] eqn:Hprov.
      * simpl. split; [|auto]. split; [discriminate|].
        intros [H|(i & u & Hi & _)]; [contradiction|discriminate].
      * destruct (editorURI env) as [u|] eqn:Hu; simpl; rewrite ?Hq; simpl.
        -- split; [|split; [discriminate|exact Hq]].
           split; [|reflexivity]. intros _. right. eauto.
        -- split; [|auto]. split; [discriminate|].
           intros [H|(i & u & _ & Hu')]; [contradiction|discriminate].
      * destruct e; simpl; (split; [|auto]); (split; [discriminate|]);
          intros [H|(i & u & Hi & _)]; try contradiction; discriminate.
    + simpl. split; [|auto]. split; [discriminate|].
      intros [H|(i & u & _ & Hu)]; [contradiction|].
      destruct (editorURI_currentEditor env u Hu) as [cw Hcw]. congruence.
  - simpl. rewrite ?Hq. simpl. split; [|split; [discriminate|exact Hq]].
    split; [|reflexivity]. intros _. left. discriminate.
Qed.

Lemma request_releases_iff_witness :
  _addInProgress (addOrToggleCommentAtLine envTwo 5 None initial) = true
  /\ effects (addOrToggleCommentAtLine envTwo 5 None initial) = [].
Proof.
  destruct (request_releases_iff envTwo 5 None initial eq_refl eq_refl) as (_ & Hnone & _).
  assert (Hheld : _addInProgress (addOrToggleCommentAtLine envTwo 5 None initial) = true)
    by reflexivity.
  split; [exact Hheld|apply Hnone; exact Hheld].
Defined.

(** While the flag is held the serialiser only records queued requests. *)
Lemma held_only_enqueues inputs :
  forall s,
    _addInProgress s = true ->
    _addInProgress (fold_left step inputs s) = true
    /\ _emptyThreadsToAddQueue (fold_left step inputs s)
       = _emptyThreadsToAddQueue s ++ arrivals inputs
    /\ history (fold_left step inputs s) = history s ++ map Enqueue (arrivals inputs).
Proof.
  induction inputs as [|i inputs IH]; intros s Hflag.
  - simpl. rewrite !app_nil_r. auto.
  - change (fold_left step (i :: inputs) s) with (fold_left step inputs (step s i)).
    change (arrivals (i :: inputs)) with (arrivals ([i] ++ inputs)).
    unfold arrivals at 1 2. rewrite omap_app. fold (arrivals [i]) (arrivals inputs).
    assert (Hstep : _addInProgress (step s i) = true
                    /\ _emptyThreadsToAddQueue (step s i)
                       = _emptyThreadsToAddQueue s ++ arrivals [i]
                    /\ history (step s i) = history s ++ map Enqueue (arrivals [i])).
    { destruct i as [env lineNumber e|env e|env|env n comments|env p|env e].
      - simpl. unfold addOrToggleCommentAtLine, addOrToggleCommentAtLine_k.
        rewrite Hflag. simpl. auto.
      - destruct (serializerView_inv _ _ (step_serializerView s (ThreadsUpdated env e)
                                             ltac:(discriminate))) as (-> & -> & ->).
        simpl. rewrite !app_nil_r. auto.
      - destruct (serializerView_inv _ _ (step_serializerView s (DiffEditorCreated env)
                                             ltac:(discriminate))) as (-> & -> & ->).
        simpl. rewrite !app_nil_r. auto.
      - destruct (serializerView_inv _ _ (step_serializerView s (CommentsFetched env n comments)
                                             ltac:(discriminate))) as (-> & -> & ->).
        simpl. rewrite !app_nil_r. auto.
      - destruct (serializerView_inv _ _ (step_serializerView s (PromiseSettled env p)
                                             ltac:(discriminate))) as (-> & -> & ->).
        simpl. rewrite !app_nil_r. auto.
      - destruct (serializerView_inv _ _ (step_serializerView s (ResourceCommentInfosSet env e)
                                             ltac:(discriminate))) as (-> & -> & ->).
        simpl. rewrite !app_nil_r. auto. }
    destruct Hstep as (Hf & Hq & Hh). destruct (IH (step s i) Hf) as (Hf' & Hq' & Hh').
    split; [exact Hf'|]. rewrite Hq', Hq, Hh', Hh, map_app, <- !app_assoc. auto.
Qed.

(** X2.  Once a run has left a request in the queue, nothing takes it out
    again: whatever arrives afterwards, the flag stays set, the queue only
    grows by the new requests, and the history only records that they were
    queued (no request is taken, no workflow starts, none is released). *)
Theorem queued_request_is_never_taken (inputs more : list Input) :
  _emptyThreadsToAddQueue (run inputs) <> [] ->
  _addInProgress (run (inputs ++ more)) = true
  /\ _emptyThreadsToAddQueue (run (inputs ++ more))
     = _emptyThreadsToAddQueue (run inputs) ++ arrivals more
  /\ history (run (inputs ++ more)) = history (run inputs) ++ map Enqueue (arrivals more).
Proof.
  intros Hq.
  destruct (run_serial inputs) as (_ & _ & Hempty).
  assert (Hflag : _addInProgress (run inputs) = true).
  { destruct (_addInProgress (run inputs)); [reflexivity|].
    exfalso. apply Hq. apply Hempty. reflexivity. }
  unfold run at 1 2 4. rewrite fold_left_app. fold (run inputs).
  apply held_only_enqueues. exact Hflag.
Qed.

Lemma queued_request_is_never_taken_witness :
  _emptyThreadsToAddQueue
    (run ([Click envNone 5 None; Click envOne 6 None]
            ++ [ThreadsUpdated envOne (batchOf [threadT1] [] []); Click envOne 7 (Some mouse)]))
  = [(6, None); (7, Some mouse)].
Proof.
  destruct (queued_request_is_never_taken
              [Click envNone 5 None; Click envOne 6 None]
              [ThreadsUpdated envOne (batchOf [threadT1] [] []); Click envOne 7 (Some mouse)])
    as (_ & Hq & _).
  - vm_compute. discriminate.
  - rewrite Hq. reflexivity.
Defined.

(** What a request does on a free line with one provider and a model. *)
Lemma request_single_provider env lineNumber e info u s :
  _addInProgress s = false ->
  _emptyThreadsToAddQueue s = [] ->
  List.filter (fun widget => getGlyphPosition env widget =? lineNumber) (_commentWidgets s) = [] ->
  getMatchedCommentAction env lineNumber = [info] ->
  editorURI env = Some u ->
  addOrToggleCommentAtLine env lineNumber e s
  = set_addInProgress false
      (note Release
         (emit (CreateCommentThreadTemplate (ownerId info) u (templateRange lineNumber))
            (note (Start (lineNumber, e))
               (set_addInProgress true (note (Acquire (lineNumber, e)) s))))).
Proof.
  intros Hflag Hq Hfree Hprov Hu.
  destruct (editorURI_currentEditor env u Hu) as [cw Hcw].
  unfold addOrToggleCommentAtLine, addOrToggleCommentAtLine_k, addCommentAtLine_k,
    addCommentAtLine2_k, processNextThreadToAdd.
  rewrite Hflag. simpl. rewrite Hfree, Hcw, Hprov, Hu. simpl. rewrite Hq. reflexivity.
Qed.

(** X3.  The flag is released in the turn of the request, before any widget
    for the new thread exists: a second request for the same free line, with
    one provider and a model, asks the comment service for a second thread
    template on that line. *)
Theorem second_request_creates_second_template env lineNumber e1 e2 info u s :
  _addInProgress s = false ->
  _emptyThreadsToAddQueue s = [] ->
  List.filter (fun widget => getGlyphPosition env widget =? lineNumber) (_commentWidgets s) = [] ->
  getMatchedCommentAction env lineNumber = [info] ->
  editorURI env = Some u ->
  effects (addOrToggleCommentAtLine env lineNumber e2 (addOrToggleCommentAtLine env lineNumber e1 s))
  = effects s
    ++ [ CreateCommentThreadTemplate (ownerId info) u (templateRange lineNumber);
         CreateCommentThreadTemplate (ownerId info) u (templateRange lineNumber) ]
  /\ _addInProgress
       (addOrToggleCommentAtLine env lineNumber e2 (addOrToggleCommentAtLine env lineNumber e1 s))
     = false
  /\ history
       (addOrToggleCommentAtLine env lineNumber e2 (addOrToggleCommentAtLine env lineNumber e1 s))
     = history s ++ [ Acquire (lineNumber, e1); Start (lineNumber, e1); Release;
                      Acquire (lineNumber, e2); Start (lineNumber, e2); Release ].
Proof.
  intros Hflag Hq Hfree Hprov Hu.
  rewrite (request_single_provider env lineNumber e1 info u s Hflag Hq Hfree Hprov Hu).
  match goal with
  | |- context [addOrToggleCommentAtLine env lineNumber e2 ?x] =>
      rewrite (request_single_provider env lineNumber e2 info u x eq_refl Hq Hfree Hprov Hu)
  end.
  simpl. rewrite <- !app_assoc. auto.
Qed.

Lemma second_request_creates_second_template_witness :
  effects (addOrToggleCommentAtLine envOne 5 None (addOrToggleCommentAtLine envOne 5 None initial))
  = [ CreateCommentThreadTemplate "o1" aTs (templateRange 5);
      CreateCommentThreadTemplate "o1" aTs (templateRange 5) ].
Proof.
  destruct (second_request_creates_second_template envOne 5 None None {| ownerId := "o1" |} aTs
              initial eq_refl eq_refl eq_refl eq_refl eq_refl) as (He & _ & _).
  exact He.
Defined.

(** ** What a request may cause *)

Lemma requestOnly_refl env s : requestOnly env s s.
Proof. split; [reflexivity|]. exists []. rewrite app_nil_r. auto. Qed.

Lemma requestOnly_trans env s1 s2 s3 :
  requestOnly env s1 s2 -> requestOnly env s2 s3 -> requestOnly env s1 s3.
Proof.
  intros (Hv1 & x1 & He1 & Hf1) (Hv2 & x2 & He2 & Hf2).
  split; [congruence|]. exists (x1 ++ x2). split.
  - rewrite He2, He1, app_assoc. reflexivity.
  - apply Forall_app. split; [exact Hf1|].
    assert (Hw : _commentWidgets s2 = _commentWidgets s1)
      by (unfold reconcilerView in Hv1; congruence).
    rewrite <- Hw. exact Hf2.
Qed.

Lemma addOrToggleCommentAtLine_k_requestOnly env next lineNumber e s :
  (forall s1, requestOnly env s s1 -> requestOnly env s1 (next s1)) ->
  requestOnly env s (addOrToggleCommentAtLine_k env next lineNumber e s).
Proof.
  intros Hnext.
  assert (Hvia : forall s1, requestOnly env s s1 -> requestOnly env s (next s1))
    by (intros s1 H1; eapply requestOnly_trans; [exact H1|apply Hnext; exact H1]).
  unfold addOrToggleCommentAtLine_k, addCommentAtLine_k, addCommentAtLine2_k.
  destruct (_addInProgress s); simpl; [apply (requestOnly_refl env s)|].
  destruct (List.filter _ _) eqn:Hfree; [|apply Hvia; apply (requestOnly_refl env s)].
  destruct (currentEditor env); [|apply (requestOnly_refl env s)].
  destruct (getMatchedCommentAction env lineNumber) as [|info [|info' more]] eqn:Hprov.
  - apply (requestOnly_refl env s).
  - destruct (editorURI env) as [u|] eqn:Hu; [|apply (requestOnly_refl env s)].
    apply Hvia. split; [reflexivity|]. eexists. split; [reflexivity|].
    constructor; [|constructor].
    exists lineNumber, info, u. simpl in Hfree. auto.
  - destruct e; apply (requestOnly_refl env s).
Qed.

Lemma drain_requestOnly env q : forall s, requestOnly env s (drain env q s).
Proof.
  induction q as [|[lineNumber e] rest IH]; intros s; simpl.
  - apply (requestOnly_refl env s).
  - eapply requestOnly_trans; [|apply addOrToggleCommentAtLine_k_requestOnly; intros; apply IH].
    apply (requestOnly_refl env s).
Qed.

(** X4.  Whatever the state of the flag and of the queue, a request leaves
    the widget list, the snapshots, the pending-text cache, the stored
    promise and the widget counter as they are, and the only effects it
    causes are thread templates: each for the single provider of a line
    without widget, on the resource of the current diff editor, with the
    range (line, 1, line, 1).  It fetches nothing and disposes nothing. *)
Theorem request_causes_only_templates env lineNumber e s :
  reconcilerView (addOrToggleCommentAtLine env lineNumber e s) = reconcilerView s
  /\ exists extra,
      effects (addOrToggleCommentAtLine env lineNumber e s) = effects s ++ extra
      /\ Forall (createdByRequest env (_commentWidgets s)) extra.
Proof.
  apply (addOrToggleCommentAtLine_k_requestOnly env (processNextThreadToAdd env) lineNumber e s).
  intros. apply drain_requestOnly.
Qed.

(** ** Draining the queue *)

Lemma drain_occupied env q :
  forall s,
    _emptyThreadsToAddQueue s = q ->
    Forall (occupied env (_commentWidgets s)) q ->
    _addInProgress (drain env q s) = false
    /\ _emptyThreadsToAddQueue (drain env q s) = []
    /\ history (drain env q s)
       = history s ++ Release :: flat_map (fun r => [Acquire r; Release]) q
    /\ effects (drain env q s) = effects s
    /\ reconcilerView (drain env q s) = reconcilerView s.
Proof.
  induction q as [|[lineNumber e] rest IH]; intros s Hq Hocc.
  - simpl. rewrite Hq. auto.
  - inversion Hocc as [|r rs Hhead Htail]; subst.
    simpl. unfold addOrToggleCommentAtLine_k. simpl.
    unfold occupied in Hhead. simpl in Hhead.
    destruct (List.filter _ (_commentWidgets s)) as [|w ws] eqn:Hf; [contradiction|].
    destruct (IH (set_addInProgress true
                    (note (Acquire (lineNumber, e))
                       (set_queue rest (set_addInProgress false (note Release s)))))
                eq_refl Htail) as (Hflag & Hqueue & Hhist & Heff & Hview).
    rewrite Hflag, Hqueue, Hhist, Heff, Hview. simpl. rewrite <- !app_assoc. auto.
Qed.

(** X5.  [processNextThreadToAdd] goes on as long as the requests it shifts
    out release the flag again: when a widget sits on the line of every
    queued request, the whole queue is taken in order, oldest first, each
    request being skipped, and the controller ends with the flag clear, the
    queue empty and no effect caused. *)
Theorem processNextThreadToAdd_drains_occupied_lines env s :
  Forall (occupied env (_commentWidgets s)) (_emptyThreadsToAddQueue s) ->
  _addInProgress (processNextThreadToAdd env s) = false
  /\ _emptyThreadsToAddQueue (processNextThreadToAdd env s) = []
  /\ history (processNextThreadToAdd env s)
     = history s
       ++ Release :: flat_map (fun r => [Acquire r; Release]) (_emptyThreadsToAddQueue s)
  /\ effects (processNextThreadToAdd env s) = effects s
  /\ reconcilerView (processNextThreadToAdd env s) = reconcilerView s.
Proof. intros Hocc. apply drain_occupied; [reflexivity|exact Hocc]. Qed.

Lemma processNextThreadToAdd_drains_occupied_lines_witness :
  history
    (processNextThreadToAdd envOne
       (set_queue [(3, None); (3, Some mouse)]
          (run (ownerKnown ++ [ThreadsUpdated envOne (batchOf [threadT1] [] [])]))))
  = [ Release; Acquire (3, None); Release; Acquire (3, Some mouse); Release ].
Proof.
  destruct (processNextThreadToAdd_drains_occupied_lines envOne
              (set_queue [(3, None); (3, Some mouse)]
                 (run (ownerKnown ++ [ThreadsUpdated envOne (batchOf [threadT1] [] [])]))))
    as (_ & _ & Hh & _).
  - repeat constructor; vm_compute; discriminate.
  - rewrite Hh. reflexivity.
Defined.

(** ** Batches that change nothing *)

Lemma filter_all_false {A} (p : A -> bool) (l : list A) :
  Forall (fun x => p x = false) l -> List.filter p l = [].
Proof.
  induction 1 as [|x l Hx _ IH]; simpl; [reflexivity|]. rewrite Hx. exact IH.
Qed.

Lemma applyThreadDelta_unknown_owner env u e s :
  ~ ownerIsKnown (e_owner e) s -> applyThreadDelta env u e s = s.
Proof.
  intros Hunknown. unfold applyThreadDelta, ownerIsKnown in *.
  destruct (List.filter _ (_commentInfos s)); [reflexivity|].
  exfalso. apply Hunknown. discriminate.
Qed.

Lemma unknown_owner_batch_is_noop env e s :
  _computePromise s = None ->
  ~ ownerIsKnown (e_owner e) s ->
  onDidUpdateCommentThreads env e s = s.
Proof.
  intros Hp Hunknown. unfold onDidUpdateCommentThreads.
  destruct (editorURI env) as [u|]; [|reflexivity]. rewrite Hp.
  apply applyThreadDelta_unknown_owner. exact Hunknown.
Qed.

(** X6.  With no promise stored, a batch changes nothing at all, not even
    the effects, in each of these cases: the modified side of the current
    diff editor has no model (or there is no diff editor); the batch's owner
    has no snapshot in the cache; none of the batch's threads belongs to the
    resource of the editor (a null or empty resource belongs to none). *)
Theorem batch_is_ignored env e s :
  _computePromise s = None ->
  (editorURI env = None
   \/ ~ ownerIsKnown (e_owner e) s
   \/ exists u, editorURI env = Some u
                /\ Forall (fun t => forResource u t = false) (added e ++ removed e ++ changed e)) ->
  onDidUpdateCommentThreads env e s = s.
Proof.
  intros Hp Hcase. unfold onDidUpdateCommentThreads.
  destruct (editorURI env) as [u|] eqn:Hu; [|reflexivity]. rewrite Hp.
  destruct Hcase as [Hnone|[Hunknown|(u' & Hu' & Hall)]].
  - discriminate.
  - apply applyThreadDelta_unknown_owner. exact Hunknown.
  - inversion Hu'; subst u'.
    apply Forall_app in Hall. destruct Hall as [Ha Hall].
    apply Forall_app in Hall. destruct Hall as [Hr Hc].
    unfold applyThreadDelta. destruct (List.filter _ (_commentInfos s)); [reflexivity|].
    unfold addedPhase, changedPhase, removedPhase.
    rewrite (filter_all_false _ _ Ha), (filter_all_false _ _ Hr), (filter_all_false _ _ Hc).
    reflexivity.
Qed.

Lemma batch_is_ignored_witness :
  onDidUpdateCommentThreads envOne
    (batchOf [ {| threadId := "t2"; resource := Some "file:///b.ts"; range := lineRange 7 |} ]
             [ {| threadId := "t1"; resource := None; range := lineRange 3 |} ] [])
    (run (ownerKnown ++ [ThreadsUpdated envOne (batchOf [threadT1] [] [])]))
  = run (ownerKnown ++ [ThreadsUpdated envOne (batchOf [threadT1] [] [])]).
Proof.
  apply batch_is_ignored; [reflexivity|].
  right. right. exists aTs. split; [reflexivity|].
  repeat constructor.
Defined.

(** ** Widgets of other owners *)

Lemma removeFirst_filter_disjoint {A} (p q : A -> bool) (l : list A) :
  (forall x, p x = true -> q x = false) ->
  List.filter q (removeFirst p l) = List.filter q l.
Proof.
  intros Hpq. induction l as [|x l IH]; simpl; [reflexivity|].
  destruct (p x) eqn:Hx; simpl.
  - rewrite (Hpq x Hx). reflexivity.
  - rewrite IH. reflexivity.
Qed.

Lemma removals_other_owner owner_ owner' ths :
  owner' <> owner_ ->
  forall ws,
    List.filter (fun w => bool_decide (widget_owner w = owner')) (removals owner_ ths ws)
    = List.filter (fun w => bool_decide (widget_owner w = owner')) ws.
Proof.
  intros Hne. unfold removals. induction ths as [|t ths IH]; intros ws; simpl; [reflexivity|].
  rewrite IH. apply removeFirst_filter_disjoint.
  intros w Hw. unfold matchesRemoved in Hw.
  apply andb_prop in Hw. destruct Hw as [Hw _]. apply andb_prop in Hw. destruct Hw as [Hw _].
  apply bool_decide_eq_true_1 in Hw. apply bool_decide_eq_false_2. congruence.
Qed.

Lemma widgetsOf_other_owner owner_ owner' ths :
  owner' <> owner_ ->
  forall n,
    List.filter (fun w => bool_decide (widget_owner w = owner')) (widgetsOf n owner_ ths) = [].
Proof.
  intros Hne. induction ths as [|t ths IH]; intros n; simpl; [reflexivity|].
  rewrite bool_decide_eq_false_2 by congruence. apply IH.
Qed.

(** X7.  A batch only touches the widgets of its own owner: the widgets of
    any other owner are the same, in the same order, after the batch
    (whether the batch is applied, ignored or suspended). *)
Theorem batch_keeps_widgets_of_other_owners env e s owner' :
  owner' <> e_owner e ->
  List.filter (fun w => bool_decide (widget_owner w = owner'))
              (_commentWidgets (onDidUpdateCommentThreads env e s))
  = List.filter (fun w => bool_decide (widget_owner w = owner')) (_commentWidgets s).
Proof.
  intros Hne. unfold onDidUpdateCommentThreads.
  destruct (editorURI env) as [u|] eqn:Hu; [|reflexivity].
  destruct (_computePromise s); [reflexivity|].
  destruct (List.filter (fun info => bool_decide (owner info = e_owner e)) (_commentInfos s))
    as [|info infos] eqn:Hknown.
  - unfold applyThreadDelta. rewrite Hknown. reflexivity.
  - rewrite (applyThreadDelta_widgets env u e s Hu)
      by (unfold ownerIsKnown; rewrite Hknown; discriminate).
    rewrite List.filter_app, removals_other_owner, widgetsOf_other_owner by exact Hne.
    apply app_nil_r.
Qed.

Lemma batch_keeps_widgets_of_other_owners_witness :
  List.filter (fun w => bool_decide (widget_owner w = "o1"))
    (_commentWidgets
       (onDidUpdateCommentThreads envOne
          {| e_owner := "o2"; added := [threadT1]; removed := [threadT1]; changed := [] |}
          (run (ownerKnown ++ [ThreadsUpdated envOne (batchOf [threadT1] [] [])]))))
  = [ widgetT1 0 ].
Proof.
  rewrite (batch_keeps_widgets_of_other_owners envOne
             {| e_owner := "o2"; added := [threadT1]; removed := [threadT1]; changed := [] |}
             (run (ownerKnown ++ [ThreadsUpdated envOne (batchOf [threadT1] [] [])])) "o1")
    by discriminate.
  reflexivity.
Defined.

(** ** The snapshots after a batch *)

Lemma ownerIsKnown_split owner_ s :
  ownerIsKnown owner_ s ->
  exists before info after,
    _commentInfos s = before ++ info :: after
    /\ owner info = owner_
    /\ Forall (fun i => owner i <> owner_) before.
Proof.
  unfold ownerIsKnown. induction (_commentInfos s) as [|info infos IH]; simpl.
  - intros H. contradiction.
  - destruct (bool_decide_reflect (owner info = owner_)) as [Heq|Hne].
    + intros _. exists [], info, infos. auto.
    + intros H. destruct (IH H) as (before & i & after & Hsplit & Ho & Hb).
      exists (info :: before), i, after. rewrite Hsplit. auto.
Qed.

Lemma pushThreads_split owner_ ths :
  forall before info after,
    owner info = owner_ ->
    Forall (fun i => owner i <> owner_) before ->
    fold_left (fun infos thread => pushThread owner_ thread infos) ths (before ++ info :: after)
    = before ++ {| owner := owner info; threads := threads info ++ ths |} :: after.
Proof.
  induction ths as [|t ths IH]; intros before info after Ho Hb; simpl.
  - rewrite app_nil_r. destruct info; reflexivity.
  - assert (Hpush : pushThread owner_ t (before ++ info :: after)
                    = before ++ {| owner := owner info; threads := threads info ++ [t] |} :: after).
    { clear IH. induction Hb as [|i before Hi _ IHb]; simpl.
      - rewrite bool_decide_eq_true_2 by exact Ho. reflexivity.
      - rewrite bool_decide_eq_false_2 by exact Hi. rewrite IHb. reflexivity. }
    rewrite Hpush, IH by assumption. simpl. rewrite <- app_assoc. reflexivity.
Qed.

Lemma applyThreadDelta_infos env u e s :
  editorURI env = Some u ->
  ownerIsKnown (e_owner e) s ->
  _commentInfos (applyThreadDelta env u e s)
  = fold_left (fun infos thread => pushThread (e_owner e) thread infos)
              (List.filter (forResource u) (added e)) (_commentInfos s).
Proof.
  intros Hu Hknown. destruct (editorURI_editor env u Hu) as [ed Hed].
  unfold applyThreadDelta, ownerIsKnown in *.
  destruct (List.filter _ (_commentInfos s)); [contradiction|].
  unfold addedPhase.
  destruct (addThreads_fields env (e_owner e) ed (List.filter (forResource u) (added e)) Hed
              (changedPhase u e (removedPhase u e s))) as [_ Hi].
  rewrite Hi.
  destruct (snapshotView_inv _ _ (changedPhase_snapshotView u e (removedPhase u e s))) as [-> _].
  destruct (snapshotView_inv _ _ (removedPhase_snapshotView u e s)) as [-> _].
  reflexivity.
Qed.

(** X8.  An applied batch changes one snapshot only: the first one of the
    batch's owner, which receives the added threads of the resource, in the
    order of the batch, after the threads it had.  The snapshots before and
    after it (later ones of the same owner included) stay as they are, and
    no thread leaves a snapshot: the removed threads stay listed. *)
Theorem batch_extends_first_snapshot_of_owner env u e s :
  editorURI env = Some u ->
  _computePromise s = None ->
  ownerIsKnown (e_owner e) s ->
  exists before info after,
    _commentInfos s = before ++ info :: after
    /\ owner info = e_owner e
    /\ Forall (fun i => owner i <> e_owner e) before
    /\ _commentInfos (onDidUpdateCommentThreads env e s)
       = before
         ++ {| owner := owner info;
               threads := threads info ++ List.filter (forResource u) (added e) |}
         :: after.
Proof.
  intros Hu Hp Hknown.
  destruct (ownerIsKnown_split _ _ Hknown) as (before & info & after & Hsplit & Ho & Hb).
  exists before, info, after. split; [exact Hsplit|]. split; [exact Ho|]. split; [exact Hb|].
  rewrite (onDidUpdateCommentThreads_applies env u e s Hu Hp).
  rewrite (applyThreadDelta_infos env u e s Hu Hknown), Hsplit.
  apply pushThreads_split; assumption.
Qed.

Lemma batch_extends_first_snapshot_of_owner_witness :
  _commentInfos
    (onDidUpdateCommentThreads envOne (batchOf [] [threadT1] [])
       (run (ownerKnown ++ [ThreadsUpdated envOne (batchOf [threadT1] [] [])])))
  = [ {| owner := "o1"; threads := [threadT1] |} ].
Proof.
  assert (Hknown : ownerIsKnown "o1"
                     (run (ownerKnown ++ [ThreadsUpdated envOne (batchOf [threadT1] [] [])])))
    by (vm_compute; discriminate).
  destruct (batch_extends_first_snapshot_of_owner envOne aTs (batchOf [] [threadT1] [])
              (run (ownerKnown ++ [ThreadsUpdated envOne (batchOf [threadT1] [] [])]))
              eq_refl eq_refl Hknown) as (before & info & after & Hsplit & _ & _ & Hafter).
  rewrite Hafter. simpl. rewrite app_nil_r.
  destruct before as [|b before].
  - simpl in Hsplit. inversion Hsplit. reflexivity.
  - destruct before; inversion Hsplit.
Defined.

(** ** Removal among several widgets of a thread *)

(** X9.  When several widgets match a removed thread, the callback takes
    out the first one in the list and only that one: the position found by
    [indexOf] lies in the list, the widgets before and after it keep their
    order, the other matches stay displayed, and the widget taken out is the
    one disposed. *)
Theorem removal_takes_first_match owner_ thread s m ms :
  List.filter (matchesRemoved owner_ thread) (_commentWidgets s) = m :: ms ->
  exists before after,
    _commentWidgets s = before ++ m :: after
    /\ List.filter (matchesRemoved owner_ thread) before = []
    /\ indexOf m (_commentWidgets s) = Z.of_nat (length before)
    /\ _commentWidgets (removeThread owner_ thread s) = before ++ after
    /\ List.filter (matchesRemoved owner_ thread) (_commentWidgets (removeThread owner_ thread s))
       = ms
    /\ effects (removeThread owner_ thread s) = effects s ++ [Dispose m].
Proof.
  intros Hm.
  destruct (removeFirst_split _ _ _ _ Hm) as (before & after & Hl & Hr & Hb).
  exists before, after. split; [exact Hl|]. split; [exact Hb|].
  assert (Hpm : matchesRemoved owner_ thread m = true).
  { assert (Hin : In m (List.filter (matchesRemoved owner_ thread) (_commentWidgets s)))
      by (rewrite Hm; left; reflexivity).
    apply filter_In in Hin. tauto. }
  split.
  { rewrite Hl. clear Hl Hr Hm. induction before as [|b before IH]; simpl.
    - destruct (decide (m = m)); [reflexivity|contradiction].
    - simpl in Hb. destruct (matchesRemoved owner_ thread b) eqn:Hpb; [discriminate|].
      destruct (decide (b = m)) as [->|Hne]; [congruence|].
      rewrite (IH Hb). destruct (Z.ltb_spec (Z.of_nat (length before)) 0); lia. }
  split; [rewrite removeThread_widgets; exact Hr|].
  split.
  - rewrite removeThread_widgets, Hr, List.filter_app, Hb. simpl.
    rewrite Hl, List.filter_app, Hb in Hm. simpl in Hm. rewrite Hpm in Hm.
    inversion Hm. reflexivity.
  - unfold removeThread. rewrite Hm. reflexivity.
Qed.

Lemma removal_takes_first_match_witness :
  _commentWidgets
    (removeThread "o1" threadT1
       (run (ownerKnown ++ [ ThreadsUpdated envOne (batchOf [threadT1] [] []);
                             ThreadsUpdated envOne (batchOf [threadT1] [] []) ])))
  = [ widgetT1 1 ].
Proof.
  destruct (removal_takes_first_match "o1" threadT1
              (run (ownerKnown ++ [ ThreadsUpdated envOne (batchOf [threadT1] [] []);
                                    ThreadsUpdated envOne (batchOf [threadT1] [] []) ]))
              (widgetT1 0) [widgetT1 1] eq_refl)
    as (before & after & Hl & _ & _ & Hr & Hrest & _).
  rewrite Hr. rewrite Hr in Hrest.
  destruct before as [|b before].
  - simpl in Hl. inversion Hl. reflexivity.
  - simpl in Hl. inversion Hl as [[Hb Hrest']]. subst b.
    destruct before as [|b' before]; simpl in Hrest'.
    + inversion Hrest'.
    + inversion Hrest' as [[Hb' Hnil]]. destruct before; discriminate.
Defined.

(** ** Changed threads *)

Lemma changeThread_effects owner_ thread s :
  effects (changeThread owner_ thread s)
  = effects s ++ match refreshed owner_ (_commentWidgets s) thread with
                 | Some x => [x]
                 | None => []
                 end.
Proof.
  unfold changeThread, refreshed. destruct (List.filter _ _); simpl;
    [rewrite app_nil_r|]; reflexivity.
Qed.

Lemma changeThread_reconcilerView owner_ thread s :
  reconcilerView (changeThread owner_ thread s) = reconcilerView s.
Proof. unfold changeThread. destruct (List.filter _ _); reflexivity. Qed.

Lemma changed_phase_effects u e s :
  _commentWidgets (changedPhase u e s) = _commentWidgets s
  /\ effects (changedPhase u e s)
     = effects s
       ++ omap (refreshed (e_owner e) (_commentWidgets s))
               (List.filter (forResource u) (changed e)).
Proof.
  split; [apply changedPhase_widgets|].
  unfold changedPhase. generalize (List.filter (forResource u) (changed e)) as ths.
  intros ths. revert s. induction ths as [|t ths IH]; intros s; simpl.
  - rewrite app_nil_r. reflexivity.
  - rewrite IH, changeThread_effects, changeThread_widgets.
    destruct (refreshed (e_owner e) (_commentWidgets s) t); simpl;
      rewrite <- ?app_assoc, ?app_nil_r; reflexivity.
Qed.

(** X10.  The changed threads of a batch never alter the widget list, the
    snapshots, the counter or the serialiser: for each changed thread of the
    resource, in the order of the batch, the first widget with the batch's
    owner and the thread's id is refreshed, and a thread without such a
    widget is passed over.  (Unlike a removal, the match does not exclude
    the empty threadId.) *)
Theorem changed_threads_only_refresh u e s :
  reconcilerView (changedPhase u e s) = reconcilerView s
  /\ serializerView (changedPhase u e s) = serializerView s
  /\ effects (changedPhase u e s)
     = effects s
       ++ omap (refreshed (e_owner e) (_commentWidgets s))
               (List.filter (forResource u) (changed e)).
Proof.
  split; [apply (fold_left_view reconcilerView); intros; apply changeThread_reconcilerView|].
  split; [apply (fold_left_view serializerView); intros; apply changeThread_serializerView|].
  apply changed_phase_effects.
Qed.

(** ** Snapshots that replace the cache *)

Lemma showsResource_editor env r : showsResource env r = true -> exists ed, editor env = Some ed.
Proof.
  unfold showsResource, editor. destruct (currentEditor env) as [w|]; [|discriminate].
  destruct (editor_of w); [eauto|discriminate].
Qed.

Lemma onDidSetResourceCommentInfos_shown env ev s :
  showsResource env (ev_resource ev) = true ->
  onDidSetResourceCommentInfos env ev s
  = set_commentInfos (omap (fun c => c) (ev_commentInfos ev)) s.
Proof.
  intros Hshow. destruct (showsResource_editor env _ Hshow) as [ed Hed].
  unfold onDidSetResourceCommentInfos, setComments. rewrite Hed.
  unfold showsResource in Hshow.
  destruct (currentEditor env) as [w|]; [|discriminate].
  destruct (editor_of w) as [original modified|]; [|discriminate].
  destruct (getModel modified); [|discriminate].
  rewrite Hshow. reflexivity.
Qed.

Lemma onDidSetResourceCommentInfos_not_shown env ev s :
  showsResource env (ev_resource ev) = false ->
  onDidSetResourceCommentInfos env ev s = s.
Proof.
  intros Hshow. unfold onDidSetResourceCommentInfos. unfold showsResource in Hshow.
  destruct (currentEditor env) as [w|]; [|reflexivity].
  destruct (editor_of w) as [original modified|]; [|reflexivity].
  destruct (getModel modified); [|reflexivity].
  rewrite Hshow. reflexivity.
Qed.

(** X11.  When the current diff editor shows the resource of a
    comment-infos event, the event's non-null snapshots replace the whole
    cache and nothing else changes: the widgets stay displayed.  An owner
    that has no snapshot among them is unknown from then on, so each of its
    batches is ignored, the removal of its displayed widgets included.  For
    any other resource the event changes nothing. *)
Theorem replaced_snapshots_silence_dropped_owner env ev owner_ s :
  showsResource env (ev_resource ev) = true ->
  owner_ ∉ (owner <$> omap (fun c => c) (ev_commentInfos ev)) ->
  _computePromise s = None ->
  _commentInfos (onDidSetResourceCommentInfos env ev s) = omap (fun c => c) (ev_commentInfos ev)
  /\ _commentWidgets (onDidSetResourceCommentInfos env ev s) = _commentWidgets s
  /\ effects (onDidSetResourceCommentInfos env ev s) = effects s
  /\ (forall env' e,
         e_owner e = owner_ ->
         onDidUpdateCommentThreads env' e (onDidSetResourceCommentInfos env ev s)
         = onDidSetResourceCommentInfos env ev s)
  /\ (forall ev', showsResource env (ev_resource ev') = false ->
                  onDidSetResourceCommentInfos env ev' s = s).
Proof.
  intros Hshow Habsent Hp.
  rewrite (onDidSetResourceCommentInfos_shown env ev s Hshow).
  split; [reflexivity|]. split; [reflexivity|]. split; [reflexivity|].
  split; [|intros ev'; apply onDidSetResourceCommentInfos_not_shown].
  intros env' e Ho. apply unknown_owner_batch_is_noop; [exact Hp|].
  intros Hknown. apply ownerIsKnown_iff in Hknown. simpl in Hknown.
  apply Habsent. rewrite Ho in Hknown. apply list_elem_of_In. exact Hknown.
Qed.

Lemma replaced_snapshots_silence_dropped_owner_witness :
  _commentWidgets
    (onDidUpdateCommentThreads envOne (batchOf [] [threadT1] [])
       (onDidSetResourceCommentInfos envOne
          {| ev_resource := aTs; ev_commentInfos := [None] |}
          (run (ownerKnown ++ [ThreadsUpdated envOne (batchOf [threadT1] [] [])]))))
  = [ widgetT1 0 ].
Proof.
  destruct (replaced_snapshots_silence_dropped_owner envOne
              {| ev_resource := aTs; ev_commentInfos := [None] |} "o1"
              (run (ownerKnown ++ [ThreadsUpdated envOne (batchOf [threadT1] [] [])])))
    as (_ & Hw & _ & Hignored & _).
  - reflexivity.
  - simpl. apply not_elem_of_nil.
  - reflexivity.
  - rewrite (Hignored envOne (batchOf [] [threadT1] []) eq_refl), Hw. reflexivity.
Defined.

(** ** The fetch of [beginCompute] *)

(** X12.  [beginCompute] on an editor with a model asks the comment service
    for the comments of that resource and, before the answer, changes
    neither the snapshots nor the stored promise; when that fetch
    settles, its non-null snapshots replace the cache if a diff editor is
    current at that moment, whatever resource that editor then shows, and
    are dropped if none is.  The widgets are not touched either way. *)
Theorem fetched_snapshots_follow_the_current_editor env1 env2 u1 comments s :
  editorURI env1 = Some u1 ->
  effects (beginCompute env1 s) = effects s ++ [GetComments u1]
  /\ inflight (beginCompute env1 s) = inflight s ++ [u1]
  /\ _computePromise (beginCompute env1 s) = _computePromise s
  /\ _commentInfos (beginCompute env1 s) = _commentInfos s
  /\ inflight (beginCompute_resume env2 (length (inflight s)) comments (beginCompute env1 s))
     = inflight s
  /\ _commentWidgets
       (beginCompute_resume env2 (length (inflight s)) comments (beginCompute env1 s))
     = _commentWidgets s
  /\ _commentInfos
       (beginCompute_resume env2 (length (inflight s)) comments (beginCompute env1 s))
     = match editor env2 with
       | Some _ => omap (fun c => c) comments
       | None => _commentInfos s
       end.
Proof.
  intros Hu. unfold beginCompute, beginCompute_resume. rewrite Hu. simpl.
  rewrite (list_lookup_middle (inflight s) [] u1 (length (inflight s)) eq_refl).
  rewrite (delete_middle (inflight s) [] u1), app_nil_r.
  unfold setComments. destruct (editor env2); simpl; auto 10.
Qed.

Lemma fetched_snapshots_follow_the_current_editor_witness :
  _commentInfos
    (beginCompute_resume (envWith (diffEditorOn "file:///b.ts") []) 0
       [ None; Some {| owner := "o1"; threads := [threadT1] |} ]
       (beginCompute envOne initial))
  = [ {| owner := "o1"; threads := [threadT1] |} ].
Proof.
  destruct (fetched_snapshots_follow_the_current_editor envOne
              (envWith (diffEditorOn "file:///b.ts") []) aTs
              [ None; Some {| owner := "o1"; threads := [threadT1] |} ] initial eq_refl)
    as (_ & _ & _ & _ & _ & _ & Hi).
  exact Hi.
Defined.

(** ** The widget list over a run *)

Lemma disposedOf_app xs ys : disposedOf (xs ++ ys) = disposedOf xs ++ disposedOf ys.
Proof. unfold disposedOf. apply omap_app. Qed.

Lemma widgetsSound_ext s s' :
  _commentWidgets s' = _commentWidgets s ->
  nextWidget s' = nextWidget s ->
  disposedOf (effects s') = disposedOf (effects s) ->
  widgetsSound s -> widgetsSound s'.
Proof. unfold widgetsSound. intros -> -> ->. auto. Qed.

Lemma removeThread_sound owner_ thread s :
  widgetsSound s -> widgetsSound (removeThread owner_ thread s).
Proof.
  intros (Hwb & Hlt & Hnd & Hd & Hdn). unfold removeThread.
  destruct (List.filter _ (_commentWidgets s)) as [|m ms] eqn:Hm;
    [repeat split; assumption|].
  destruct (removeFirst_split _ _ _ _ Hm) as (before & after & Hl & Hr & _).
  unfold widgetsSound. simpl.
  rewrite (splice1_indexOf _ _ _ _ Hm), Hr, disposedOf_app. simpl.
  rewrite Hl in Hwb, Hlt, Hnd, Hd.
  rewrite fmap_app, fmap_cons in Hnd, Hd.
  apply Forall_app in Hwb as [Hwb1 Hwb2]. apply Forall_cons in Hwb2 as [_ Hwb2].
  apply Forall_app in Hlt as [Hlt1 Hlt2]. apply Forall_cons in Hlt2 as [Hltm Hlt2].
  apply NoDup_app in Hnd as (Hn1 & Hn2 & Hn3). apply NoDup_cons in Hn3 as [Hn4 Hn5].
  assert (Hmb : wid m ∉ wid <$> before).
  { intros Hin. apply (Hn2 _ Hin). left. }
  rewrite !fmap_app.
  split; [apply Forall_app; auto|]. split; [apply Forall_app; auto|].
  split.
  { apply NoDup_app. split; [exact Hn1|]. split; [|exact Hn5].
    intros x Hx Hxa. apply (Hn2 x Hx). right. exact Hxa. }
  split.
  { apply Forall_app. split.
    - eapply Forall_impl; [exact Hd|]. intros w [Hw1 Hw2]. split; [exact Hw1|].
      intros Hin. apply Hw2. apply elem_of_app in Hin as [Hin|Hin];
        apply elem_of_app; [left; exact Hin|right; right; exact Hin].
    - constructor; [|constructor]. split; [exact Hltm|].
      intros Hin. apply elem_of_app in Hin as [Hin|Hin]; contradiction. }
  apply NoDup_app. split; [exact Hdn|]. split; [|apply NoDup_singleton].
  intros x Hx Hxm. apply list_elem_of_singleton in Hxm. subst x.
  apply list_elem_of_fmap in Hx as (d & Hwd & Hdin).
  rewrite Forall_forall in Hd.
  destruct (Hd d Hdin) as [_ Hnot]. apply Hnot. rewrite <- Hwd.
  apply elem_of_app. right. left.
Qed.

Lemma changeThread_sound owner_ thread s :
  widgetsSound s -> widgetsSound (changeThread owner_ thread s).
Proof.
  apply widgetsSound_ext.
  - apply changeThread_widgets.
  - destruct (snapshotView_inv _ _ (changeThread_snapshotView owner_ thread s)) as [_ H].
    exact H.
  - rewrite changeThread_effects, disposedOf_app.
    unfold refreshed. destruct (List.filter _ _); simpl; apply app_nil_r.
Qed.

Lemma addThread_sound env owner_ thread u s :
  forResource u thread = true ->
  widgetsSound s -> widgetsSound (addThread env owner_ thread s).
Proof.
  intros Hres (Hwb & Hlt & Hnd & Hd & Hdn).
  unfold addThread, displayCommentThread.
  destruct (editor env); [|repeat split; assumption].
  assert (Hdisp : forall s', disposedOf (effects s') = disposedOf (effects s) ->
                            widgetsSound
                              (set_commentInfos (pushThread owner_ thread (_commentInfos s'))
                                 (set_commentWidgets
                                    (_commentWidgets s
                                       ++ [ {| wid := nextWidget s; widget_owner := owner_;
                                               commentThread := thread;
                                               afterLineNumber := startLineNumber (range thread);
                                               heightInLines := 5 |} ])
                                    (set_nextWidget (S (nextWidget s)) s')))).
  { intros s' Heff. unfold widgetsSound. simpl. rewrite Heff, fmap_app. simpl.
    split.
    { apply Forall_app. split; [exact Hwb|]. constructor; [|constructor].
      split; [reflexivity|]. split; [reflexivity|]. simpl.
      unfold forResource in Hres. destruct (resource thread) as [r|]; [|discriminate].
      exists r. split; [reflexivity|]. apply andb_prop in Hres as [Hr _].
      apply negb_true_iff in Hr. apply bool_decide_eq_false_1 in Hr. exact Hr. }
    split.
    { apply Forall_app. split; [|constructor; [simpl; lia|constructor]].
      eapply Forall_impl; [exact Hlt|]. simpl. intros; lia. }
    split.
    { apply NoDup_app. split; [exact Hnd|]. split; [|apply NoDup_singleton].
      intros x Hx Hxn. apply list_elem_of_singleton in Hxn. subst x.
      apply list_elem_of_fmap in Hx as (w & Hw & Hin).
      rewrite Forall_forall in Hlt.
      specialize (Hlt w Hin). simpl in Hlt. lia. }
    split; [|exact Hdn].
    eapply Forall_impl; [exact Hd|]. simpl. intros w [Hw1 Hw2]. split; [lia|].
    intros Hin. apply elem_of_app in Hin as [Hin|Hin]; [contradiction|].
    apply list_elem_of_singleton in Hin. lia. }
  destruct (getCommentController env owner_) as [c|].
  - apply (Hdisp (emit (SetCommentControllerKey (id c)) (emit (GetCommentController owner_) s))).
    simpl. rewrite !disposedOf_app. simpl. rewrite ?app_nil_r. reflexivity.
  - apply (Hdisp (emit (GetCommentController owner_) s)).
    simpl. rewrite !disposedOf_app. simpl. rewrite ?app_nil_r. reflexivity.
Qed.

Lemma fold_left_kept {A B} (P : A -> Prop) (Q : B -> Prop) (f : A -> B -> A) (l : list B) :
  (forall a x, Q x -> P a -> P (f a x)) ->
  Forall Q l ->
  forall a, P a -> P (fold_left f l a).
Proof.
  intros Hf Hl. induction Hl as [|x l Hx _ IH]; intros a Ha; simpl; [exact Ha|].
  apply IH. apply Hf; assumption.
Qed.

Lemma filter_Forall_true {A} (p : A -> bool) (l : list A) :
  Forall (fun x => p x = true) (List.filter p l).
Proof.
  apply Forall_forall. intros x Hx. apply list_elem_of_In, filter_In in Hx. tauto.
Qed.

Lemma applyThreadDelta_sound env u e s :
  widgetsSound s -> widgetsSound (applyThreadDelta env u e s).
Proof.
  intros Hs. unfold applyThreadDelta. destruct (List.filter _ (_commentInfos s)); [exact Hs|].
  unfold addedPhase, changedPhase, removedPhase.
  apply (fold_left_kept widgetsSound (fun t => forResource u t = true));
    [intros a t Ht Ha; eapply addThread_sound; eassumption|apply filter_Forall_true|].
  apply (fold_left_kept widgetsSound (fun _ => True));
    [intros a t _ Ha; apply changeThread_sound; exact Ha|apply Forall_forall; auto|].
  apply (fold_left_kept widgetsSound (fun _ => True));
    [intros a t _ Ha; apply removeThread_sound; exact Ha|apply Forall_forall; auto|].
  exact Hs.
Qed.

Lemma disposedOf_onFreeLine env ws extra :
  Forall (onFreeLine env ws) extra -> disposedOf extra = [].
Proof.
  induction 1 as [|x extra Hx _ IH]; [reflexivity|].
  destruct x; simpl in Hx; try contradiction. exact IH.
Qed.

Lemma step_sound s i :
  _computePromise s = None -> suspended s = [] ->
  widgetsSound s -> widgetsSound (step s i).
Proof.
  intros Hp Hsus Hs.
  destruct i as [env l e|env e|env|env n comments|env p|env e]; simpl.
  - destruct (addOrToggleCommentAtLine_quiet env l e s) as (Hv & extra & He & Hfree).
    unfold reconcilerView in Hv. inversion Hv as [[Hw Hi Hc Hcp Hn Hin Hsu]].
    apply (widgetsSound_ext s); [exact Hw|exact Hn| |exact Hs].
    rewrite He, disposedOf_app, (disposedOf_onFreeLine _ _ _ Hfree). apply app_nil_r.
  - apply (fireThreadsUpdated_kept widgetsSound); [|exact Hs].
    clear. intros s Hs.
    unfold onDidUpdateCommentThreads. destruct (editorURI env) as [u|]; [|exact Hs].
    destruct (_computePromise s); [exact Hs|]. apply applyThreadDelta_sound. exact Hs.
  - unfold onCreated_diffEditor, beginCompute. destruct (editorURI env); [|exact Hs].
    apply (widgetsSound_ext s); try reflexivity; [|exact Hs].
    simpl. rewrite disposedOf_app. apply app_nil_r.
  - unfold beginCompute_resume. destruct (inflight s !! n); [|exact Hs].
    unfold setComments. destruct (editor env); exact Hs.
  - unfold resumeHandlers. rewrite Hsus. exact Hs.
  - destruct (onDidSetResourceCommentInfos_widgets env e s) as (Hw & _ & _).
    unfold onDidSetResourceCommentInfos, setComments.
    destruct (currentEditor env) as [w|]; [|exact Hs].
    destruct (editor_of w) as [original modified|]; [|exact Hs].
    destruct (getModel modified); [|exact Hs].
    destruct (bool_decide _); [|exact Hs].
    destruct (editor env); exact Hs.
Qed.

Lemma run_sound inputs : widgetsSound (run inputs).
Proof.
  pattern inputs. apply List.rev_ind; clear inputs.
  - unfold widgetsSound. simpl. repeat split; try constructor.
  - intros i inputs IH. rewrite run_snoc.
    destruct (run_no_promise inputs) as [Hp Hsus].
    apply step_sound; assumption.
Qed.

(** X13.  In every run, each widget in the list was built for a thread that
    names a non-empty resource, is placed after the start line of that
    thread and is five lines high; and the entries of the list are distinct
    objects: no widget is pushed twice. *)
Theorem displayed_widgets_are_well_built (inputs : list Input) :
  Forall wellBuilt (_commentWidgets (run inputs))
  /\ NoDup (wid <$> _commentWidgets (run inputs))
  /\ NoDup (_commentWidgets (run inputs)).
Proof.
  destruct (run_sound inputs) as (Hwb & _ & Hnd & _).
  split; [exact Hwb|]. split; [exact Hnd|]. eapply NoDup_fmap_1. exact Hnd.
Qed.

(** X14.  In every run, the removal callback disposes no widget twice, and a
    widget it has disposed is not in the widget list any more: the widgets
    that later batches match, refresh or remove are never disposed ones. *)
Theorem disposed_widgets_are_gone (inputs : list Input) :
  NoDup (disposedOf (effects (run inputs)))
  /\ Forall (fun w => w ∉ _commentWidgets (run inputs)) (disposedOf (effects (run inputs))).
Proof.
  destruct (run_sound inputs) as (_ & _ & _ & Hd & Hdn).
  split; [eapply NoDup_fmap_1; exact Hdn|].
  eapply Forall_impl; [exact Hd|]. simpl. intros w [_ Hnot] Hin.
  apply Hnot. apply list_elem_of_fmap. exists w. auto.
Qed.

(** ** The pending-text cache *)

Lemma step_pendingCommentCache s i :
  _computePromise s = None -> suspended s = [] ->
  _pendingCommentCache (step s i) = _pendingCommentCache s.
Proof.
  intros Hp Hsus.
  destruct i as [env l e|env e|env|env n comments|env p|env e]; simpl.
  - destruct (addOrToggleCommentAtLine_quiet env l e s) as [Hv _].
    unfold reconcilerView in Hv. inversion Hv. reflexivity.
  - apply (fireThreadsUpdated_view _pendingCommentCache).
    clear. intros s.
    unfold onDidUpdateCommentThreads. destruct (editorURI env) as [u|]; [|reflexivity].
    destruct (_computePromise s); [reflexivity|].
    destruct (asyncView_inv _ _ (applyThreadDelta_asyncView env u e s)) as (_ & _ & _ & H).
    exact H.
  - unfold onCreated_diffEditor, beginCompute. destruct (editorURI env); reflexivity.
  - unfold beginCompute_resume. destruct (inflight s !! n); [|reflexivity].
    unfold setComments. destruct (editor env); reflexivity.
  - unfold resumeHandlers. rewrite Hsus. reflexivity.
  - unfold onDidSetResourceCommentInfos, setComments.
    destruct (currentEditor env) as [w|]; [|reflexivity].
    destruct (editor_of w) as [original modified|]; [|reflexivity].
    destruct (getModel modified); [|reflexivity].
    destruct (bool_decide _); [|reflexivity].
    destruct (editor env); reflexivity.
Qed.

Lemma run_pendingCommentCache inputs : _pendingCommentCache (run inputs) = ∅.
Proof.
  pattern inputs. apply List.rev_ind; clear inputs; [reflexivity|].
  intros i inputs IH. rewrite run_snoc.
  destruct (run_no_promise inputs) as [Hp Hsus].
  rewrite (step_pendingCommentCache _ i Hp Hsus). exact IH.
Qed.

(** ** The effects of a batch *)

Lemma removeThreads_effects owner_ ths :
  forall s,
    exists ds,
      effects (fold_left (fun s thread => removeThread owner_ thread s) ths s) = effects s ++ ds
      /\ Forall isDispose ds
      /\ (length (_commentWidgets (fold_left (fun s thread => removeThread owner_ thread s) ths s))
          + length ds = length (_commentWidgets s))%nat.
Proof.
  induction ths as [|t ths IH]; intros s; simpl.
  - exists []. rewrite app_nil_r. simpl. auto.
  - destruct (IH (removeThread owner_ t s)) as (ds & He & Hd & Hlen).
    destruct (List.filter (matchesRemoved owner_ t) (_commentWidgets s)) as [|m ms] eqn:Hm.
    + assert (Hsame : removeThread owner_ t s = s)
        by (unfold removeThread; rewrite Hm; reflexivity).
      rewrite Hsame in He, Hlen |- *. exists ds. auto.
    + assert (Heff : effects (removeThread owner_ t s) = effects s ++ [Dispose m])
        by (unfold removeThread; rewrite Hm; reflexivity).
      assert (Hone : S (length (_commentWidgets (removeThread owner_ t s)))
                     = length (_commentWidgets s)).
      { destruct (removeFirst_split _ _ _ _ Hm) as (before & after & Hl & Hr & _).
        rewrite removeThread_widgets, Hr, Hl, !length_app. simpl. lia. }
      exists (Dispose m :: ds). rewrite He, Heff, <- app_assoc.
      split; [reflexivity|]. split; [constructor; [exact I|exact Hd]|].
      simpl. lia.
Qed.

Lemma addThreads_effects env owner_ ed ths :
  editor env = Some ed ->
  forall s,
    effects (fold_left (fun s thread => addThread env owner_ thread s) ths s)
    = effects s ++ flat_map (fun _ => controllerLookup env owner_) ths.
Proof.
  intros Hed. induction ths as [|t ths IH]; intros s; simpl.
  - rewrite app_nil_r. reflexivity.
  - rewrite IH. unfold addThread, displayCommentThread, controllerLookup. rewrite Hed.
    destruct (getCommentController env owner_); simpl; rewrite <- !app_assoc; reflexivity.
Qed.

(** X16.  The effects of an applied batch come phase by phase: first the
    disposals, one for each widget the removals took out of the list; then
    the refreshes of the changed threads, matched against the widgets that
    survived the removals; then, for each added thread of the resource, the
    lookup of the owner's controller, followed by the setting of the context
    key when the controller exists.  A batch fetches no comments and creates
    no thread template. *)
Theorem batch_effects_by_phase env u e s :
  editorURI env = Some u ->
  _computePromise s = None ->
  ownerIsKnown (e_owner e) s ->
  exists ds,
    effects (onDidUpdateCommentThreads env e s)
    = effects s ++ ds
      ++ omap (refreshed (e_owner e) (_commentWidgets (removedPhase u e s)))
              (List.filter (forResource u) (changed e))
      ++ flat_map (fun _ => controllerLookup env (e_owner e))
                  (List.filter (forResource u) (added e))
    /\ Forall isDispose ds
    /\ (length (_commentWidgets (removedPhase u e s)) + length ds
        = length (_commentWidgets s))%nat.
Proof.
  intros Hu Hp Hknown. destruct (editorURI_editor env u Hu) as [ed Hed].
  rewrite (onDidUpdateCommentThreads_applies env u e s Hu Hp).
  unfold applyThreadDelta, ownerIsKnown in *.
  destruct (List.filter _ (_commentInfos s)); [contradiction|].
  destruct (removeThreads_effects (e_owner e) (List.filter (forResource u) (removed e)) s)
    as (ds & He & Hd & Hlen).
  exists ds. split; [|split; [exact Hd|exact Hlen]].
  unfold addedPhase. rewrite (addThreads_effects env (e_owner e) ed _ Hed).
  destruct (changed_phase_effects u e (removedPhase u e s)) as [_ ->].
  unfold removedPhase at 1. rewrite He, <- !app_assoc. reflexivity.
Qed.

Lemma batch_effects_by_phase_witness :
  exists ds,
    effects
      (onDidUpdateCommentThreads envOne (batchOf [threadT1] [threadT1] [threadT1])
         (run (ownerKnown ++ [ThreadsUpdated envOne (batchOf [threadT1] [] [])])))
    = effects (run (ownerKnown ++ [ThreadsUpdated envOne (batchOf [threadT1] [] [])]))
      ++ ds
      ++ omap (refreshed "o1"
                 (_commentWidgets
                    (removedPhase aTs (batchOf [threadT1] [threadT1] [threadT1])
                       (run (ownerKnown ++ [ThreadsUpdated envOne (batchOf [threadT1] [] [])])))))
              (List.filter (forResource aTs) [threadT1])
      ++ flat_map (fun _ => controllerLookup envOne "o1")
                  (List.filter (forResource aTs) [threadT1])
    /\ Forall isDispose ds
    /\ (length
          (_commentWidgets
             (removedPhase aTs (batchOf [threadT1] [threadT1] [threadT1])
                (run (ownerKnown ++ [ThreadsUpdated envOne (batchOf [threadT1] [] [])]))))
        + length ds
        = length (_commentWidgets
                    (run (ownerKnown ++ [ThreadsUpdated envOne (batchOf [threadT1] [] [])]))))%nat.
Proof.
  apply (batch_effects_by_phase envOne aTs (batchOf [threadT1] [threadT1] [threadT1])
           (run (ownerKnown ++ [ThreadsUpdated envOne (batchOf [threadT1] [] [])])));
    [reflexivity|reflexivity|vm_compute; discriminate].
Defined.

(** A thread removed and changed by the same batch is not refreshed: its
    widget is gone when the changes are applied. *)
Example removed_and_changed_thread_is_not_refreshed :
  effects
    (onDidUpdateCommentThreads envOne (batchOf [] [threadT1] [threadT1])
       (run (ownerKnown ++ [ThreadsUpdated envOne (batchOf [threadT1] [] [])])))
  = effects (run (ownerKnown ++ [ThreadsUpdated envOne (batchOf [threadT1] [] [])]))
    ++ [ Dispose (widgetT1 0) ].
Proof. reflexivity. Qed.

(** ** The mouse handler *)

(** X17.  A mouse-down either leaves the controller as it is or is the
    request for the line after the zero-based line of the target position,
    made with the event.  It is that request when the target has a range,
    lies in the line-decorations gutter at most 14 pixels right of the
    glyph margin and the line numbers, and its element carries the class
    [comment-diff-added]; it changes nothing when one of these fails. *)
Theorem mouse_down_is_a_request_or_nothing env target s :
  (forall s',
      onEditorMouseDown env target s = Some s' ->
      s' = s
      \/ exists line,
          target_position target = Some line
          /\ s' = step s (Click env (line + 1) (Some {| position_line := line |})))
  /\ (forall range_start className line,
         target_range target = Some range_start ->
         target_type target = GUTTER_LINE_DECORATIONS ->
         offsetX (target_detail target) - glyphMarginWidth (target_detail target)
         - lineNumbersWidth (target_detail target) - glyphMarginLeft (target_detail target) <= 14 ->
         target_element target = Some className ->
         0 <= stringIndexOf "comment-diff-added" className ->
         target_position target = Some line ->
         onEditorMouseDown env target s
         = Some (addOrToggleCommentAtLine env (line + 1) (Some {| position_line := line |}) s))
  /\ (target_range target = None
      \/ target_type target <> GUTTER_LINE_DECORATIONS
      \/ 14 < offsetX (target_detail target) - glyphMarginWidth (target_detail target)
              - lineNumbersWidth (target_detail target) - glyphMarginLeft (target_detail target)
      \/ target_element target = None
      \/ (exists className, target_element target = Some className
                            /\ stringIndexOf "comment-diff-added" className < 0) ->
      onEditorMouseDown env target s = Some s).
Proof.
  unfold onEditorMouseDown.
  destruct target as [rng ty data el pos]. simpl.
  split; [|split].
  - intros s' H. destruct rng as [range_start|]; [|inversion H; auto].
    destruct (isLineDecorations ty); simpl in H; [|inversion H; auto].
    destruct (_ >? 14); [inversion H; auto|].
    rewrite Z.eqb_refl in H. simpl in H.
    destruct el as [className|]; [|inversion H; auto].
    destruct (_ >=? 0); [|inversion H; auto].
    destruct pos as [line|]; [|discriminate].
    inversion H. right. exists line. auto.
  - intros range_start className line -> -> Hoff -> Hidx ->. simpl.
    destruct (Z.gtb_spec (offsetX data - glyphMarginWidth data - lineNumbersWidth data
                          - glyphMarginLeft data) 14); [lia|].
    rewrite Z.eqb_refl. simpl.
    destruct (Z.geb_spec (stringIndexOf "comment-diff-added" className) 0); [reflexivity|lia].
  - intros Hcase. destruct rng as [range_start|]; [|reflexivity].
    destruct Hcase as [Hr|[Hty|[Hoff|[Hel|(className & Hel & Hidx)]]]].
    + discriminate.
    + destruct ty; simpl; try reflexivity. contradiction.
    + destruct (isLineDecorations ty); simpl; [|reflexivity].
      destruct (Z.gtb_spec (offsetX data - glyphMarginWidth data - lineNumbersWidth data
                            - glyphMarginLeft data) 14); [reflexivity|lia].
    + subst el. destruct (isLineDecorations ty); simpl; [|reflexivity].
      destruct (_ >? 14); [reflexivity|]. rewrite Z.eqb_refl. reflexivity.
    + subst el. destruct (isLineDecorations ty); simpl; [|reflexivity].
      destruct (_ >? 14); [reflexivity|]. rewrite Z.eqb_refl. simpl.
      destruct (Z.geb_spec (stringIndexOf "comment-diff-added" className) 0); [lia|reflexivity].
Qed.

Lemma mouse_down_is_a_request_or_nothing_witness :
  onEditorMouseDown envOne (gutterTarget "cldr comment-diff-added" 4) initial
  = Some (addOrToggleCommentAtLine envOne 5 (Some {| position_line := 4 |}) initial)
  /\ onEditorMouseDown envOne (gutterTarget "cldr" 4) initial = Some initial.
Proof.
  destruct (mouse_down_is_a_request_or_nothing envOne
              (gutterTarget "cldr comment-diff-added" 4) initial) as (_ & Hreq & _).
  destruct (mouse_down_is_a_request_or_nothing envOne (gutterTarget "cldr" 4) initial)
    as (_ & _ & Hnone).
  split.
  - apply (Hreq 5 "cldr comment-diff-added" 4); try reflexivity.
    + simpl. lia.
    + vm_compute. discriminate.
  - apply Hnone. right. right. right. right. exists "cldr". split; [reflexivity|].
    vm_compute. reflexivity.
Defined.

(** * The removals of a batch *)

Lemma removals_filter_disjoint owner_ ths (q : CommentThreadWidget -> bool) :
  (forall thread x, In thread ths -> matchesRemoved owner_ thread x = true -> q x = false) ->
  forall ws, List.filter q (removals owner_ ths ws) = List.filter q ws.
Proof.
  unfold removals. induction ths as [|t ths IH]; intros Hq ws; simpl; [reflexivity|].
  rewrite IH by (intros thread x Hin; apply Hq; right; exact Hin).
  apply removeFirst_filter_disjoint. intros x Hx. apply (Hq t x); [left; reflexivity|exact Hx].
Qed.

Lemma removeThreads_effects_grow owner_ ths s x :
  In x (effects s) ->
  In x (effects (fold_left (fun s thread => removeThread owner_ thread s) ths s)).
Proof.
  intros Hx. destruct (removeThreads_effects owner_ ths s) as (ds & -> & _).
  apply in_or_app. left. exact Hx.
Qed.

(** The unique widget of a removed thread is disposed, wherever the thread
    stands among the removed ones. *)
Lemma removeThreads_dispose owner_ thread w ths :
  threadId thread <> "" ->
  In thread ths ->
  forall s,
    widgetsFor owner_ (threadId thread) (_commentWidgets s) = [w] ->
    In (Dispose w) (effects (fold_left (fun s thread => removeThread owner_ thread s) ths s)).
Proof.
  intros Hne. induction ths as [|r ths IH]; intros Hin s Hw; [contradiction|].
  simpl. destruct (decide (threadId r = threadId thread)) as [Hsame|Hdiff].
  - apply removeThreads_effects_grow.
    assert (Hm : List.filter (matchesRemoved owner_ r) (_commentWidgets s) = [w]).
    { rewrite <- Hw. unfold widgetsFor. apply List.filter_ext. intros x.
      rewrite <- Hsame. apply matchesRemoved_key. rewrite Hsame. exact Hne. }
    unfold removeThread. rewrite Hm. simpl. apply in_or_app. right. left. reflexivity.
  - destruct Hin as [->|Hin]; [contradiction|].
    apply IH; [exact Hin|].
    rewrite removeThread_widgets. unfold widgetsFor.
    rewrite removeFirst_filter_disjoint; [exact Hw|].
    intros x Hx. unfold matchesRemoved in Hx. unfold matchesKey.
    apply andb_prop in Hx as [Hx _]. apply andb_prop in Hx as [_ Hx].
    apply bool_decide_eq_true_1 in Hx.
    rewrite (bool_decide_eq_false_2 (threadId (commentThread x) = threadId thread))
      by congruence.
    apply andb_false_r.
Qed.

Lemma removeThreads_skip_placeholders owner_ u ths :
  forall s,
    fold_left (fun s thread => removeThread owner_ thread s) (List.filter (forResource u) ths) s
    = fold_left (fun s thread => removeThread owner_ thread s)
        (List.filter (forResource u)
           (List.filter (fun thread => negb (bool_decide (threadId thread = ""))) ths)) s.
Proof.
  induction ths as [|t ths IH]; intros s; simpl; [reflexivity|].
  destruct (bool_decide_reflect (threadId t = "")) as [Hempty|Hfull]; simpl.
  - destruct (forResource u t); simpl; [|apply IH].
    rewrite (removeThread_placeholder owner_ t s Hempty). apply IH.
  - destruct (forResource u t); simpl; apply IH.
Qed.

(** C8.  The removals of any batch, for every removed thread of the resource
    wherever it stands in the batch.  When its threadId is not empty and one
    widget matches the owner and the threadId, that widget is no longer in
    the list after the removals, no widget of the thread is left and the
    widget has been disposed.  Nothing else leaves the list: the widgets
    that no removed thread matches are the same, in the same order.  A
    removed thread with the empty threadId matches no widget: its callback
    returns the state as it is, the removals are those of the batch without
    such threads, and no widget with the empty threadId leaves the list.
    The handler applies exactly these removals: its widget list starts with
    what they leave and its effects with theirs. *)
Theorem removals_of_a_batch u e s :
  (forall thread w,
      In thread (List.filter (forResource u) (removed e)) ->
      threadId thread <> "" ->
      widgetsFor (e_owner e) (threadId thread) (_commentWidgets s) = [w] ->
      ~ In w (_commentWidgets (removedPhase u e s))
      /\ widgetsFor (e_owner e) (threadId thread) (_commentWidgets (removedPhase u e s)) = []
      /\ In (Dispose w) (effects (removedPhase u e s)))
  /\ (forall q : CommentThreadWidget -> bool,
         (forall thread x,
             In thread (List.filter (forResource u) (removed e)) ->
             matchesRemoved (e_owner e) thread x = true -> q x = false) ->
         List.filter q (_commentWidgets (removedPhase u e s)) = List.filter q (_commentWidgets s))
  /\ (forall thread, threadId thread = "" -> removeThread (e_owner e) thread s = s)
  /\ removedPhase u e s = removedPhase u (withoutPlaceholderRemovals e) s
  /\ List.filter (fun x => bool_decide (threadId (commentThread x) = ""))
                 (_commentWidgets (removedPhase u e s))
     = List.filter (fun x => bool_decide (threadId (commentThread x) = "")) (_commentWidgets s)
  /\ (forall env,
         editorURI env = Some u -> _computePromise s = None -> ownerIsKnown (e_owner e) s ->
         _commentWidgets (onDidUpdateCommentThreads env e s)
         = _commentWidgets (removedPhase u e s)
           ++ widgetsOf (nextWidget s) (e_owner e) (List.filter (forResource u) (added e))
         /\ exists later,
             effects (onDidUpdateCommentThreads env e s) = effects (removedPhase u e s) ++ later).
Proof.
  split; [|split; [|split; [|split; [|split]]]].
  - intros thread w Hin Hne Hw.
    assert (Hgone : widgetsFor (e_owner e) (threadId thread)
                      (_commentWidgets (removedPhase u e s)) = []).
    { apply length_zero_nil. rewrite removedPhase_widgets.
      apply removals_clear; [exact Hne|rewrite Hw; simpl; lia|eauto]. }
    split; [|split; [exact Hgone|]].
    + intros Hstill.
      assert (Hkey : matchesKey (e_owner e) (threadId thread) w = true).
      { assert (Hin' : In w (widgetsFor (e_owner e) (threadId thread) (_commentWidgets s)))
          by (rewrite Hw; left; reflexivity).
        apply filter_In in Hin'. tauto. }
      assert (Hin' : In w (widgetsFor (e_owner e) (threadId thread)
                             (_commentWidgets (removedPhase u e s))))
        by (apply filter_In; auto).
      rewrite Hgone in Hin'. contradiction.
    + apply (removeThreads_dispose (e_owner e) thread w); assumption.
  - intros q Hq. rewrite removedPhase_widgets. apply removals_filter_disjoint. exact Hq.
  - intros thread. apply removeThread_placeholder.
  - unfold removedPhase, withoutPlaceholderRemovals. simpl.
    apply removeThreads_skip_placeholders.
  - rewrite removedPhase_widgets. apply removals_filter_disjoint.
    intros thread x _ Hx. unfold matchesRemoved in Hx.
    apply andb_prop in Hx as [_ Hx]. apply negb_true_iff in Hx. exact Hx.
  - intros env Hu Hp Hknown. destruct (editorURI_editor env u Hu) as [ed Hed].
    rewrite (onDidUpdateCommentThreads_applies env u e s Hu Hp).
    split.
    + rewrite (applyThreadDelta_widgets env u e s Hu Hknown), removedPhase_widgets.
      reflexivity.
    + unfold applyThreadDelta, ownerIsKnown in *.
      destruct (List.filter _ (_commentInfos s)); [contradiction|].
      unfold addedPhase. rewrite (addThreads_effects env (e_owner e) ed _ Hed).
      destruct (changed_phase_effects u e (removedPhase u e s)) as [_ ->].
      rewrite <- app_assoc. eexists. reflexivity.
Qed.

Lemma removals_of_a_batch_witness :
  ~ In (widgetT1 1)
      (_commentWidgets
         (removedPhase aTs (batchOf [] [threadPlaceholder; threadT1] [])
            (run (ownerKnown ++ [ThreadsUpdated envOne (batchOf [threadPlaceholder; threadT1] [] [])]))))
  /\ In (Dispose (widgetT1 1))
        (effects
           (removedPhase aTs (batchOf [] [threadPlaceholder; threadT1] [])
              (run (ownerKnown
                      ++ [ThreadsUpdated envOne (batchOf [threadPlaceholder; threadT1] [] [])])))).
Proof.
  destruct (removals_of_a_batch aTs (batchOf [] [threadPlaceholder; threadT1] [])
              (run (ownerKnown ++ [ThreadsUpdated envOne (batchOf [threadPlaceholder; threadT1] [] [])])))
    as (Hrem & _).
  assert (Hne : threadId threadT1 <> "") by discriminate.
  destruct (Hrem threadT1 (widgetT1 1)) as (Hgone & _ & Hdisp).
  - vm_compute. right. left. reflexivity.
  - exact Hne.
  - reflexivity.
  - split; [exact Hgone|exact Hdisp].
Defined.

(** * Added threads *)





(** * Requests left in the queue *)

Lemma processed_enqueued rs : processed (map Enqueue rs) = [].
Proof. induction rs as [|r rs IH]; simpl; [reflexivity|exact IH]. Qed.

(** C2.  The requests that find the flag clear are taken as they arrive, and
    never two at once; but a request that was queued is never processed.  No
    run shifts a request out of the queue: whatever follows, the queue of a
    run is the beginning of the queue of its continuation.  After a request
    for a line without provider, the request for line 6 is queued and stays
    there for ever: only the first request is ever taken, whatever arrives
    later. *)
Theorem queued_requests_are_never_processed :
  (forall inputs more,
      exists later,
        _emptyThreadsToAddQueue (run (inputs ++ more))
        = _emptyThreadsToAddQueue (run inputs) ++ later)
  /\ (forall more,
         _addInProgress (run ([Click envNone 5 None; Click envOne 6 None] ++ more)) = true
         /\ _emptyThreadsToAddQueue (run ([Click envNone 5 None; Click envOne 6 None] ++ more))
            = (6, None) :: arrivals more
         /\ processed (history (run ([Click envNone 5 None; Click envOne 6 None] ++ more)))
            = [(5, None)]).
Proof.
  split.
  - intros inputs more.
    destruct (_addInProgress (run inputs)) eqn:Hflag.
    + unfold run at 1. rewrite fold_left_app. fold (run inputs).
      destruct (held_only_enqueues more (run inputs) Hflag) as (_ & Hq & _).
      rewrite Hq. eauto.
    + destruct (run_serial inputs) as (_ & _ & Hempty).
      rewrite (Hempty Hflag). simpl. eauto.
  - intros more.
    unfold run. rewrite fold_left_app.
    destruct (held_only_enqueues more
                (fold_left step [Click envNone 5 None; Click envOne 6 None] initial) eq_refl)
      as (Hf & Hq & Hh).
    rewrite Hf, Hq, Hh. split; [reflexivity|]. split; [reflexivity|].
    unfold processed at 1. rewrite omap_app. fold (processed (map Enqueue (arrivals more))).
    rewrite processed_enqueued. reflexivity.
Qed.

(** * The pending-text cache *)

(** X15.  No handler writes the pending-text cache: in every run it has no
    own entry.  The lookup for an added thread therefore answers only what a
    plain object inherits: nothing for an owner that [Object.prototype] does
    not know, and else what the inherited value holds under the threadId
    (the inherited value itself when it is falsy). *)
Theorem pending_cache_has_no_own_entry (inputs : list Input) :
  _pendingCommentCache (run inputs) = ∅
  /\ (forall env owner_ thread,
         pendingCommentTextOf env owner_ thread (run inputs)
         = match inheritedProperty env owner_ with
           | Some v =>
               if isTruthy v then propertyOfInherited env owner_ (threadId thread) else Some v
           | None => None
           end)
  /\ (forall env owner_ thread,
         inheritedProperty env owner_ = None ->
         pendingCommentTextOf env owner_ thread (run inputs) = None).
Proof.
  pose proof (run_pendingCommentCache inputs) as Hempty.
  split; [exact Hempty|]. split.
  - intros env o t. unfold pendingCommentTextOf. rewrite Hempty, lookup_empty. reflexivity.
  - intros env o t Hnone. unfold pendingCommentTextOf.
    rewrite Hempty, lookup_empty, Hnone. reflexivity.
Qed.

(** The lookup on the empty cache for the owner [constructor] and the thread
    [name], with a runtime whose [Object.prototype.constructor.name] is
    [Object]. *)
Example inherited_pending_text :
  pendingCommentTextOf envOne "constructor"
    {| threadId := "name"; resource := Some aTs; range := lineRange 3 |} initial
  = Some (JSString "Object")
  /\ pendingCommentTextOf envOne "o1" threadT1 initial = None.
Proof. split; reflexivity. Qed.
